(** * Plant image analyzer and disease selector

    A shallow embedding of [src/utils/imageAnalysis.ts] (class
    [PlantImageAnalyzer]) and of [selectDiseaseBasedOnAnalysis] from
    [src/pages/DiseaseScanner.tsx].

    Modelling conventions.
    - A JavaScript [number] is an exact rational ([Q]).  The channel values
      of an [ImageData] are integers in [0..255]; counters are integers
      ([Z]) and are injected into [Q] where the source divides them.
      The program computes in doubles: the per-pixel tests, the tallies and
      the flags are the same either way, while a rounded value can differ
      where the exact value is a tie.  Module [Double] repeats the numeric
      steps in binary64 to evaluate the program at concrete inputs, and the
      theorems about rounded values leave the direction taken at a tie
      open.
    - [ImageData] is the browser's type: [data] holds [4 * width * height]
      channel values, each in [0..255], and both dimensions are positive
      ([well_formed]).
      Division by zero and reads past the end of [data], which yield
      [Infinity]/[NaN]/[undefined] in JavaScript, can only happen outside
      that domain; theorems that depend on it carry [well_formed].
    - [Math.random()] and the elapsed time are inputs of [analyzeImage].
    - [async] functions are modelled by the value they resolve to. *)

From Stdlib Require Import ZArith QArith Qabs Qround Qminmax Lqa Lia List Bool String.
From Stdlib Require Import Permutation.
From Stdlib Require Import PrimFloat FloatClass.
Import ListNotations.

Open Scope Q_scope.

(** ** JavaScript numbers *)

(* the type of JavaScript numbers *)
Abbreviation number := Q (only parsing).

Module JS.

Definition ltb (x y : number) : bool := negb (Qle_bool y x).
Definition gtb (x y : number) : bool := ltb y x.
Definition leb (x y : number) : bool := Qle_bool x y.
Definition geb (x y : number) : bool := Qle_bool y x.

Definition Math_abs (x : number) : number := Qabs x.
Definition Math_min (x y : number) : number := Qmin x y.
Definition Math_max (x y : number) : number := Qmax x y.
(* Math.round rounds halves towards +Infinity *)
Definition Math_round (x : number) : number := inject_Z (Qfloor (x + (1 # 2))).
Definition Math_ceil (x : number) : number := inject_Z (Qceiling x).

End JS.
Import JS.

Declare Scope js_scope.
Delimit Scope js_scope with js.
Infix "<?" := JS.ltb (at level 70, no associativity) : js_scope.
Infix ">?" := JS.gtb (at level 70, no associativity) : js_scope.
Infix "<=?" := JS.leb (at level 70, no associativity) : js_scope.
Infix ">=?" := JS.geb (at level 70, no associativity) : js_scope.
Open Scope js_scope.

(** ** Data model *)

Record ImageData := mkImageData {
  width : Z;
  height : Z;
  data : list Z
}.

(* a sample of a Uint8ClampedArray *)
Definition is_sample (v : Z) : bool := (0 <=? v)%Z && (v <=? 255)%Z.

Definition well_formed (imageData : ImageData) : Prop :=
  (0 < width imageData)%Z /\ (0 < height imageData)%Z /\
  Z.of_nat (List.length (data imageData)) = (4 * (width imageData * height imageData))%Z /\
  forallb is_sample (data imageData) = true.

Inductive Condition := healthy | mild_damage | moderate_damage | severe_damage | critical.

Module Urgency.
Inductive t := none | low | medium | high | critical.
End Urgency.

Record ImageAnalysisResult := mkImageAnalysisResult {
  hasBlackSpots : bool;
  blackSpotCount : number;
  blackSpotPercentage : number;
  hasDamage : bool;
  damagePercentage : number;
  healthScore : number;
  overallCondition : Condition;
  confidence : number;
  imageQuality : number;
  analysisTime : number
}.

Record PlantHealthAssessment := mkPlantHealthAssessment {
  isHealthy : bool;
  condition : string;
  healthPercentage : number;
  recommendations : list string;
  urgency : Urgency.t
}.

(* return type of detectBlackSpots *)
Module BlackSpots.
Record t := mk { hasBlackSpots : bool; count : number; percentage : number }.
End BlackSpots.

(* return type of assessDamage *)
Module Damage.
Record t := mk { hasDamage : bool; percentage : number }.
End Damage.

(** ** detectBlackSpots *)

(* The body of [for (let i = 0; i < data.length; i += 4)].  The loop reads
   [data[i]], [data[i+1]], [data[i+2]] and skips the alpha channel; when
   fewer than three values are left a channel is [undefined], [brightness]
   is [NaN] and neither counter moves. *)
Fixpoint detectBlackSpots_loop (data : list Z) (blackSpotPixels potentialSpots : Z) : Z * Z :=
  match data with
  | d0 :: d1 :: d2 :: tl =>
      let r := inject_Z d0 in
      let g := inject_Z d1 in
      let b := inject_Z d2 in
      let brightness := (r + g + b) / 3 in
      let colorVariation := Math_abs (r - g) + Math_abs (g - b) + Math_abs (b - r) in
      let blackSpotPixels :=
        if (brightness <? 60) && (colorVariation <? 30)
        then (blackSpotPixels + 1)%Z else blackSpotPixels in
      let potentialSpots :=
        if (brightness <? 100) && (r >? g) && (r >? b) && (colorVariation >? 40)
        then (potentialSpots + 1)%Z else potentialSpots in
      match tl with
      | _ :: rest => detectBlackSpots_loop rest blackSpotPixels potentialSpots
      | [] => (blackSpotPixels, potentialSpots)
      end
  | _ => (blackSpotPixels, potentialSpots)
  end.

Definition detectBlackSpots (imageData : ImageData) : BlackSpots.t :=
  let totalPixels := (width imageData * height imageData)%Z in
  let '(blackSpotPixels, potentialSpots) := detectBlackSpots_loop (data imageData) 0 0 in
  let blackSpotPercentage := (inject_Z blackSpotPixels / inject_Z totalPixels) * 100 in
  let hasBlackSpots := blackSpotPercentage >? 0.1 in
  let estimatedSpotCount :=
    Math_ceil (inject_Z blackSpotPixels / (inject_Z (width imageData) * 0.02)) in
  {| BlackSpots.hasBlackSpots := hasBlackSpots;
     BlackSpots.count := if hasBlackSpots then Math_max 1 estimatedSpotCount else 0;
     BlackSpots.percentage := Math_round (blackSpotPercentage * 100) / 100 |}.

(** ** assessDamage *)

Fixpoint assessDamage_loop (data : list Z) (damagedPixels : Z) : Z :=
  match data with
  | d0 :: d1 :: d2 :: tl =>
      let r := inject_Z d0 in
      let g := inject_Z d1 in
      let b := inject_Z d2 in
      let brightness := (r + g + b) / 3 in
      (* 1. Yellowing/chlorosis *)
      let damagedPixels :=
        if (r >? 180) && (g >? 150) && (b <? 100) && (brightness >? 150)
        then (damagedPixels + 1)%Z else damagedPixels in
      (* 2. Brown spots/necrosis *)
      let damagedPixels :=
        if (r >? 100) && (r <? 180) && (g >? 50) && (g <? 130) && (b <? 80) && (brightness <? 150)
        then (damagedPixels + 1)%Z else damagedPixels in
      (* 3. Wilting/drying *)
      let damagedPixels :=
        if (g <? r * 0.7) && (g <? b * 0.8) && (brightness <? 120)
        then (damagedPixels + 1)%Z else damagedPixels in
      (* 4. White/silver spots *)
      let damagedPixels :=
        if (brightness >? 200) && (Math_abs (r - g) <? 20) && (Math_abs (g - b) <? 20)
        then (damagedPixels + 1)%Z else damagedPixels in
      match tl with
      | _ :: rest => assessDamage_loop rest damagedPixels
      | [] => damagedPixels
      end
  | _ => damagedPixels
  end.

Definition assessDamage (imageData : ImageData) : Damage.t :=
  let totalPixels := (width imageData * height imageData)%Z in
  let damagedPixels := assessDamage_loop (data imageData) 0 in
  let damagePercentage := (inject_Z damagedPixels / inject_Z totalPixels) * 100 in
  let hasDamage := damagePercentage >? 0.5 in
  {| Damage.hasDamage := hasDamage;
     Damage.percentage := Math_round (damagePercentage * 100) / 100 |}.

(** ** calculateHealthScore *)

Definition calculateHealthScore (blackSpots : BlackSpots.t) (damage : Damage.t) : number :=
  let healthScore := 100 in
  let healthScore :=
    if BlackSpots.hasBlackSpots blackSpots
    then healthScore - Math_min (BlackSpots.percentage blackSpots * 3) 40
    else healthScore in
  let healthScore :=
    if Damage.hasDamage damage
    then healthScore - Math_min (Damage.percentage damage * 2) 50
    else healthScore in
  let healthScore :=
    if (BlackSpots.percentage blackSpots >? 5) && (Damage.percentage damage >? 10)
    then healthScore - 15
    else healthScore in
  Math_max 0 (Math_round healthScore).

(** ** assessImageQuality *)

(* [for (let i = lo; i < hi; i++) body] threading the loop's variables *)
Definition for_range {S : Type} (lo hi : Z) (body : Z -> S -> S) (s : S) : S :=
  fold_left (fun s k => body (lo + Z.of_nat k)%Z s) (seq 0 (Z.to_nat (hi - lo))) s.

(* [data[i]] as a number; every index read by [assessImageQuality] is in
   range for a well-formed image (see [quality_reads_in_range]) *)
Definition get (data : list Z) (i : Z) : number := inject_Z (nth (Z.to_nat i) data 0%Z).

Definition assessImageQuality_body (data : list Z) (width : Z) (y x : Z)
    (acc : Z * number) : Z * number :=
  let '(edgePixels, totalContrast) := acc in
  let idx := ((y * width + x) * 4)%Z in
  let current := (get data idx + get data (idx + 1) + get data (idx + 2)) / 3 in
  let right := (get data (idx + 4) + get data (idx + 5) + get data (idx + 6)) / 3 in
  let bottom :=
    (get data ((y + 1) * width * 4 + x * 4)
     + get data ((y + 1) * width * 4 + x * 4 + 1)
     + get data ((y + 1) * width * 4 + x * 4 + 2)) / 3 in
  let contrast := Math_abs (current - right) + Math_abs (current - bottom) in
  let totalContrast := totalContrast + contrast in
  let edgePixels := if contrast >? 30 then (edgePixels + 1)%Z else edgePixels in
  (edgePixels, totalContrast).

Definition assessImageQuality (imageData : ImageData) : number :=
  let data := data imageData in
  let width := width imageData in
  let height := height imageData in
  let '(edgePixels, totalContrast) :=
    for_range 1 (height - 1) (fun y =>
      for_range 1 (width - 1) (fun x => assessImageQuality_body data width y x))
      (0%Z, 0) in
  let sharpness := (inject_Z edgePixels / inject_Z (width * height)) * 100 in
  let avgContrast := totalContrast / inject_Z (width * height) in
  let qualityScore := 50 in
  let qualityScore := qualityScore + Math_min (sharpness * 2) 30 in
  let qualityScore := qualityScore + Math_min (avgContrast / 5) 20 in
  Math_min qualityScore 95.

(** ** determineOverallCondition *)

Definition determineOverallCondition (healthScore : number) (hasBlackSpots hasDamage : bool)
    : Condition :=
  if (healthScore >=? 85) && negb hasBlackSpots && negb hasDamage then healthy
  else if healthScore >=? 70 then mild_damage
  else if healthScore >=? 50 then moderate_damage
  else if healthScore >=? 30 then severe_damage
  else critical.

(** ** analyzeImage *)

(* [random] stands for the value of [Math.random()], [elapsed] for
   [(Date.now() - startTime) / 1000].  The [detectedIssues] display strings
   (built by [generateIssuesList] with [toFixed]) are not modelled. *)
Definition analyzeImage (random elapsed : number) (imageData : ImageData)
    : ImageAnalysisResult :=
  let blackSpotAnalysis := detectBlackSpots imageData in
  let damageAnalysis := assessDamage imageData in
  let healthScore := calculateHealthScore blackSpotAnalysis damageAnalysis in
  let imageQuality := assessImageQuality imageData in
  let analysisTime := elapsed in
  let overallCondition :=
    determineOverallCondition healthScore
      (BlackSpots.hasBlackSpots blackSpotAnalysis) (Damage.hasDamage damageAnalysis) in
  {| hasBlackSpots := BlackSpots.hasBlackSpots blackSpotAnalysis;
     blackSpotCount := BlackSpots.count blackSpotAnalysis;
     blackSpotPercentage := BlackSpots.percentage blackSpotAnalysis;
     hasDamage := Damage.hasDamage damageAnalysis;
     damagePercentage := Damage.percentage damageAnalysis;
     healthScore := healthScore;
     overallCondition := overallCondition;
     confidence := Math_min (90 + random * 8) 98;
     imageQuality := imageQuality;
     analysisTime := analysisTime |}.

(** ** assessPlantHealth *)

Definition assessPlantHealth (analysisResult : ImageAnalysisResult) : PlantHealthAssessment :=
  let healthScore := healthScore analysisResult in
  let hasBlackSpots := hasBlackSpots analysisResult in
  let hasDamage := hasDamage analysisResult in
  let blackSpotPercentage := blackSpotPercentage analysisResult in
  let damagePercentage := damagePercentage analysisResult in
  if (healthScore >=? 85) && negb hasBlackSpots && negb hasDamage then
    {| isHealthy := true;
       condition := "Excellent Health - No Issues Detected"%string;
       healthPercentage := healthScore;
       recommendations :=
         [ "✅ Plant appears perfectly healthy"%string;
           "✅ Continue current care routine"%string;
           "✅ Monitor regularly for early detection"%string;
           "✅ Maintain proper nutrition and watering"%string ];
       urgency := Urgency.none |}
  else if (healthScore >=? 70) && (negb hasBlackSpots || (blackSpotPercentage <? 5)) then
    {| isHealthy := true;
       condition := "Good Health - Minor Issues"%string;
       healthPercentage := healthScore;
       recommendations :=
         [ "🟡 Plant is mostly healthy with minor stress signs"%string;
           "🟡 Increase monitoring frequency"%string;
           "🟡 Check watering and nutrition levels"%string;
           "🟡 Ensure proper air circulation"%string ];
       urgency := Urgency.low |}
  else if (healthScore >=? 50) && ((blackSpotPercentage <? 15) || (damagePercentage <? 20)) then
    {| isHealthy := false;
       condition := "Moderate Issues - Action Needed"%string;
       healthPercentage := healthScore;
       recommendations :=
         [ "🟠 Disease symptoms detected - treat promptly"%string;
           "🟠 Remove affected leaves if possible"%string;
           "🟠 Apply appropriate fungicide"%string;
           "🟠 Improve growing conditions"%string ];
       urgency := Urgency.medium |}
  else if (healthScore >=? 30) && ((blackSpotPercentage <? 30) || (damagePercentage <? 40)) then
    {| isHealthy := false;
       condition := "Severe Disease - Immediate Action Required"%string;
       healthPercentage := healthScore;
       recommendations :=
         [ "🔴 Severe disease detected - treat immediately"%string;
           "🔴 Isolate plant from healthy ones"%string;
           "🔴 Apply systemic treatment"%string;
           "🔴 Consider professional consultation"%string ];
       urgency := Urgency.high |}
  else
    {| isHealthy := false;
       condition := "Critical Condition - Emergency Treatment"%string;
       healthPercentage := healthScore;
       recommendations :=
         [ "🚨 Plant in critical condition"%string;
           "🚨 Emergency treatment required"%string;
           "🚨 May need complete removal"%string;
           "🚨 Consult agricultural expert immediately"%string ];
       urgency := Urgency.critical |}.

(** ** The disease table and selectDiseaseBasedOnAnalysis (DiseaseScanner.tsx) *)

Module Disease.

(* The entries of [comprehensiveDiseases]; the fields from [accuracy] on
   are present only in some of the object literals. *)
Record t := mk {
  name : string;
  confidence : number;
  severity : string;
  treatments : list string;
  prevention : list string;
  description : string;
  cause : string;
  spreads : string;
  weatherConditions : string;
  accuracy : option number;
  detectionTime : option number;
  cropType : option string;
  affectedArea : option string;
  urgency : option string;
  economicImpact : option string;
  treatmentCost : option string;
  recoveryTime : option string
}.

(* [{ ...d, confidence: c }] *)
Definition with_confidence (d : t) (c : number) : t :=
  {| name := name d; confidence := c; severity := severity d;
     treatments := treatments d; prevention := prevention d;
     description := description d; cause := cause d; spreads := spreads d;
     weatherConditions := weatherConditions d; accuracy := accuracy d;
     detectionTime := detectionTime d; cropType := cropType d;
     affectedArea := affectedArea d; urgency := urgency d;
     economicImpact := economicImpact d; treatmentCost := treatmentCost d;
     recoveryTime := recoveryTime d |}.

End Disease.

Section DiseaseTable.
Local Open Scope string_scope.

Definition blackSpotDisease : Disease.t :=
  {| Disease.name := "Black Spot Disease";
     Disease.confidence := 0.95;
     Disease.severity := "severe";
     Disease.treatments :=
       [ "Remove affected leaves immediately and dispose safely";
         "Apply copper-based fungicide (Bordeaux mixture) weekly";
         "Improve air circulation around plants";
         "Reduce humidity levels around plant";
         "Apply systemic fungicide for severe cases" ];
     Disease.prevention :=
       [ "Maintain proper plant spacing for air flow";
         "Avoid overhead watering - water at soil level";
         "Remove fallen leaves regularly";
         "Apply preventive fungicide during humid seasons" ];
     Disease.description := "Fungal disease characterized by circular black or dark brown spots on leaves, often with yellow halos.";
     Disease.cause := "Fungal pathogens (Alternaria, Septoria species)";
     Disease.spreads := "Water droplets, wind, contaminated tools, infected plant debris";
     Disease.weatherConditions := "Warm, humid conditions (20-25°C with high moisture)";
     Disease.accuracy := Some 0.95;
     Disease.detectionTime := Some 0.6;
     Disease.cropType := Some "Multiple crops (roses, tomatoes, peppers, etc.)";
     Disease.affectedArea := Some "Primarily leaves, can spread to stems and fruits";
     Disease.urgency := Some "high";
     Disease.economicImpact := Some "30-60% yield loss if untreated";
     Disease.treatmentCost := Some "₹500-1200 per acre treatment";
     Disease.recoveryTime := Some "2-4 weeks with proper treatment" |}.

Definition powderyMildew : Disease.t :=
  {| Disease.name := "Powdery Mildew";
     Disease.confidence := 0.85;
     Disease.severity := "moderate";
     Disease.treatments :=
       [ "Apply sulfur-based fungicide (2-3g per liter)";
         "Use neem oil spray every 7-10 days (organic option)";
         "Improve air circulation around plants (3-4 feet spacing)";
         "Remove affected leaves and dispose safely away from garden";
         "Apply potassium bicarbonate solution (5g per liter weekly)" ];
     Disease.prevention :=
       [ "Ensure proper plant spacing";
         "Avoid overhead watering";
         "Regular pruning for air flow";
         "Choose resistant varieties" ];
     Disease.description := "White powdery coating on leaves, stems, and fruits that reduces photosynthesis and plant vigor.";
     Disease.cause := "Various fungi species (Erysiphe, Podosphaera)";
     Disease.spreads := "Airborne spores, wind dispersal, contaminated tools";
     Disease.weatherConditions := "Warm, dry conditions with high humidity at night (20-25°C)";
     Disease.accuracy := Some 0.89;
     Disease.detectionTime := Some 1.2;
     Disease.cropType := Some "Multiple crops (tomato, cucumber, roses)";
     Disease.affectedArea := Some "Leaves, stems, fruits";
     Disease.urgency := Some "medium";
     Disease.economicImpact := Some "15-25% yield loss if untreated";
     Disease.treatmentCost := Some "₹200-500 per acre";
     Disease.recoveryTime := Some "2-3 weeks with proper treatment" |}.

Definition bacterialLeafSpot : Disease.t :=
  {| Disease.name := "Bacterial Leaf Spot";
     Disease.confidence := 0.88;
     Disease.severity := "moderate";
     Disease.treatments :=
       [ "Apply copper bactericide (follow label instructions)";
         "Remove infected plant material immediately";
         "Improve drainage to prevent waterlogging";
         "Use drip irrigation instead of sprinklers";
         "Apply streptomycin (if available)" ];
     Disease.prevention :=
       [ "Use pathogen-free seeds";
         "Avoid working in wet fields";
         "Sanitize tools between plants";
         "Maintain proper field hygiene" ];
     Disease.description := "Small, dark spots with yellow halos on leaves that can merge and cause defoliation.";
     Disease.cause := "Xanthomonas bacteria";
     Disease.spreads := "Water splash, contaminated tools, insects";
     Disease.weatherConditions := "Warm, humid weather with frequent rainfall";
     Disease.accuracy := None;
     Disease.detectionTime := None;
     Disease.cropType := None;
     Disease.affectedArea := None;
     Disease.urgency := None;
     Disease.economicImpact := None;
     Disease.treatmentCost := None;
     Disease.recoveryTime := None |}.

Definition anthracnose : Disease.t :=
  {| Disease.name := "Anthracnose";
     Disease.confidence := 0.90;
     Disease.severity := "severe";
     Disease.treatments :=
       [ "Apply systemic fungicide (propiconazole)";
         "Remove and burn infected plant debris";
         "Improve air circulation and drainage";
         "Use copper-based protective sprays";
         "Harvest fruits early if infection spreads" ];
     Disease.prevention :=
       [ "Plant certified disease-free seeds";
         "Practice crop rotation (3-4 years)";
         "Maintain field sanitation";
         "Avoid overhead irrigation" ];
     Disease.description := "Circular, sunken lesions with dark centers on fruits, leaves, and stems.";
     Disease.cause := "Colletotrichum fungi species";
     Disease.spreads := "Rain splash, contaminated seeds, tools";
     Disease.weatherConditions := "Warm, wet conditions (25-30°C with high moisture)";
     Disease.accuracy := None;
     Disease.detectionTime := None;
     Disease.cropType := None;
     Disease.affectedArea := None;
     Disease.urgency := None;
     Disease.economicImpact := None;
     Disease.treatmentCost := None;
     Disease.recoveryTime := None |}.

Definition downyMildew : Disease.t :=
  {| Disease.name := "Downy Mildew";
     Disease.confidence := 0.87;
     Disease.severity := "severe";
     Disease.treatments :=
       [ "Apply systemic fungicide (metalaxyl)";
         "Use copper-based protective fungicides";
         "Improve field drainage immediately";
         "Remove lower leaves touching soil";
         "Apply phosphorous acid-based products" ];
     Disease.prevention :=
       [ "Use resistant varieties";
         "Ensure proper plant spacing";
         "Avoid dense plantings";
         "Morning irrigation to allow drying" ];
     Disease.description := "Yellow patches on upper leaf surface with grayish-white growth underneath.";
     Disease.cause := "Peronospora or Plasmopara species";
     Disease.spreads := "Airborne spores, water splash";
     Disease.weatherConditions := "Cool, moist conditions with morning dew";
     Disease.accuracy := None;
     Disease.detectionTime := None;
     Disease.cropType := None;
     Disease.affectedArea := None;
     Disease.urgency := None;
     Disease.economicImpact := None;
     Disease.treatmentCost := None;
     Disease.recoveryTime := None |}.

Definition fusariumWilt : Disease.t :=
  {| Disease.name := "Fusarium Wilt";
     Disease.confidence := 0.93;
     Disease.severity := "severe";
     Disease.treatments :=
       [ "No cure - focus on prevention and management";
         "Remove and destroy infected plants";
         "Soil solarization during off-season";
         "Apply beneficial microorganisms (Trichoderma)";
         "Use soil amendments (organic matter)" ];
     Disease.prevention :=
       [ "Plant resistant varieties (most important)";
         "Practice 4-5 year crop rotation";
         "Maintain proper soil pH (6.0-7.0)";
         "Avoid root damage during cultivation" ];
     Disease.description := "Soil-borne disease causing yellowing, wilting, and death of plants from bottom up.";
     Disease.cause := "Fusarium oxysporum fungus";
     Disease.spreads := "Contaminated soil, tools, water";
     Disease.weatherConditions := "Warm soil temperatures (25-30°C)";
     Disease.accuracy := None;
     Disease.detectionTime := None;
     Disease.cropType := None;
     Disease.affectedArea := None;
     Disease.urgency := None;
     Disease.economicImpact := None;
     Disease.treatmentCost := None;
     Disease.recoveryTime := None |}.

(* the literal returned by the [healthScore >= 85] branch *)
Definition healthyPlant (analysisTime : number) : Disease.t :=
  {| Disease.name := "Healthy Plant";
     Disease.confidence := 0.95;
     Disease.severity := "none";
     Disease.treatments :=
       [ "Continue current care routine"; "Monitor regularly"; "Maintain proper nutrition" ];
     Disease.prevention :=
       [ "Regular watering"; "Balanced fertilization"; "Good air circulation" ];
     Disease.description := "Plant appears healthy with no significant disease symptoms detected.";
     Disease.cause := "No disease detected";
     Disease.spreads := "Not applicable";
     Disease.weatherConditions := "Normal growing conditions";
     Disease.accuracy := Some 0.95;
     Disease.detectionTime := Some analysisTime;
     Disease.cropType := Some "General";
     Disease.affectedArea := Some "None";
     Disease.urgency := Some "none";
     Disease.economicImpact := Some "No impact - healthy plant";
     Disease.treatmentCost := Some "₹0 - no treatment needed";
     Disease.recoveryTime := Some "Not applicable" |}.

End DiseaseTable.

Definition comprehensiveDiseases : list Disease.t :=
  [ blackSpotDisease; powderyMildew; bacterialLeafSpot;
    anthracnose; downyMildew; fusariumWilt ].

(* [comprehensiveDiseases[i]]; the selector reads the constant indices 0, 1
   and 2 only, which are inside the table *)
Definition comprehensiveDiseases_at (i : nat) : Disease.t :=
  nth i comprehensiveDiseases fusariumWilt.

Definition selectDiseaseBasedOnAnalysis (analysisResult : ImageAnalysisResult) : Disease.t :=
  if hasBlackSpots analysisResult && (blackSpotPercentage analysisResult >? 2) then
    Disease.with_confidence (comprehensiveDiseases_at 0)
      (Math_min 0.95 (confidence analysisResult / 100))
  else if hasDamage analysisResult && (damagePercentage analysisResult >? 10) then
    Disease.with_confidence (comprehensiveDiseases_at 1)
      (Math_min 0.88 (confidence analysisResult / 100))
  else if healthScore analysisResult <? 60 then
    Disease.with_confidence (comprehensiveDiseases_at 2)
      (Math_min 0.82 (confidence analysisResult / 100))
  else if healthScore analysisResult >=? 85 then
    healthyPlant (analysisTime analysisResult)
  else
    Disease.with_confidence (comprehensiveDiseases_at 1)
      (Math_min 0.75 (confidence analysisResult / 100)).

(** * Reference definitions, following the specification's wording *)

Class Decision (P : Prop) := decide : {P} + {~ P}.
Arguments decide P {_}.

#[local] Instance Qlt_decision (x y : Q) : Decision (x < y).
Proof.
  destruct (Qlt_le_dec x y) as [H | H]; [left; exact H | right].
  apply Qle_not_lt; exact H.
Defined.

#[local] Instance and_decision (P R : Prop) `{Decision P} `{Decision R} : Decision (P /\ R).
Proof.
  destruct (decide P) as [p | np]; [destruct (decide R) as [r | nr] |].
  - left; split; assumption.
  - right; intros [_ r]; exact (nr r).
  - right; intros [p _]; exact (np p).
Defined.

Definition indicator (P : Prop) `{Decision P} : Z := if decide P then 1%Z else 0%Z.

(** A pixel as the per-pixel tests see it: its red, green and blue samples. *)
Record Pixel := rgb { red : Z; green : Z; blue : Z }.

(** The pixels of a bitmap: consecutive groups of four samples (RGBA); a
    final group that still has its three colour samples counts as one. *)
Fixpoint pixels (data : list Z) : list Pixel :=
  match data with
  | r :: g :: b :: tl =>
      rgb r g b :: match tl with _ :: rest => pixels rest | [] => [] end
  | _ => []
  end.

Section PixelPredicates.
Variable p : Pixel.
Let r : Q := inject_Z (red p).
Let g : Q := inject_Z (green p).
Let b : Q := inject_Z (blue p).

Definition brightness : Q := (r + g + b) / 3.
Definition colorVariation : Q := Qabs (r - g) + Qabs (g - b) + Qabs (b - r).

Definition is_black_spot : Prop := brightness < 60 /\ colorVariation < 30.

Definition yellowing : Prop := r > 180 /\ g > 150 /\ b < 100 /\ brightness > 150.
Definition browning : Prop :=
  (100 < r /\ r < 180) /\ (50 < g /\ g < 130) /\ b < 80 /\ brightness < 150.
Definition wilting : Prop := g < r * 0.7 /\ g < b * 0.8 /\ brightness < 120.
Definition white_patch : Prop :=
  brightness > 200 /\ Qabs (r - g) < 20 /\ Qabs (g - b) < 20.

#[local] Instance is_black_spot_decision : Decision is_black_spot.
Proof. unfold is_black_spot; exact _. Defined.
#[local] Instance yellowing_decision : Decision yellowing.
Proof. unfold yellowing; exact _. Defined.
#[local] Instance browning_decision : Decision browning.
Proof. unfold browning; exact _. Defined.
#[local] Instance wilting_decision : Decision wilting.
Proof. unfold wilting; exact _. Defined.
#[local] Instance white_patch_decision : Decision white_patch.
Proof. unfold white_patch; exact _. Defined.

(** How many of the four damage conditions the pixel matches. *)
Definition damage_matches : Z :=
  (indicator yellowing + indicator browning + indicator wilting + indicator white_patch)%Z.
End PixelPredicates.

#[local] Existing Instance is_black_spot_decision | 0.
#[local] Existing Instance yellowing_decision | 0.
#[local] Existing Instance browning_decision | 0.
#[local] Existing Instance wilting_decision | 0.
#[local] Existing Instance white_patch_decision | 0.


Definition blackSpotPixelCount (imageData : ImageData) : Z :=
  fold_right (fun p n => (indicator (is_black_spot p) + n)%Z) 0%Z (pixels (data imageData)).

Definition damagedPixelTally (imageData : ImageData) : Z :=
  fold_right (fun p n => (damage_matches p + n)%Z) 0%Z (pixels (data imageData)).

Definition totalPixels (imageData : ImageData) : Q :=
  inject_Z (width imageData) * inject_Z (height imageData).

(** Rounding to two decimals: the multiple of 1/100 nearest to [x]. *)
Definition round2 (x : Q) : Q := inject_Z (Qfloor (x * 100 + (1 # 2))) / 100.




(* the score before rounding and clamping *)
Definition rawScore (blackSpots : BlackSpots.t) (damage : Damage.t) : Q :=
  100
  - (if BlackSpots.hasBlackSpots blackSpots
     then Qmin (BlackSpots.percentage blackSpots * 3) 40 else 0)
  - (if Damage.hasDamage damage then Qmin (Damage.percentage damage * 2) 50 else 0)
  - (if (BlackSpots.percentage blackSpots >? 5) && (Damage.percentage damage >? 10)
     then 15 else 0).

(** * Sample bitmaps *)

(* [n] opaque pixels of one colour *)
Definition solid (n : nat) (r g b : Z) : list Z := List.concat (repeat [r; g; b; 255%Z] n).

(* one pixel that is both brown and wilted *)
Definition image_brown_wilted : ImageData := mkImageData 1 1 (solid 1 110 55 75).

(* 32 x 30, one black pixel on mid-gray *)
Definition image_one_black_in_960 : ImageData :=
  mkImageData 32 30 (solid 1 0 0 0 ++ solid 959 128 128 128).

(* 199 x 1, one white pixel on mid-gray *)
Definition image_one_white_in_199 : ImageData :=
  mkImageData 199 1 (solid 1 255 255 255 ++ solid 198 128 128 128).

(* 20 x 15, 28 black pixels on mid-gray *)
Definition image_28_black_in_300 : ImageData :=
  mkImageData 20 15 (solid 28 0 0 0 ++ solid 272 128 128 128).

(* 10 x 10, 3 black pixels on mid-gray (scenario C) *)
Definition image_3_black_in_100 : ImageData :=
  mkImageData 10 10 (solid 3 0 0 0 ++ solid 97 128 128 128).


(* 10 x 10, 10 white pixels on mid-gray *)
Definition image_10_white_in_100 : ImageData :=
  mkImageData 10 10 (solid 10 255 255 255 ++ solid 90 128 128 128).



(* 16 x 10, 23 black pixels on mid-gray *)
Definition image_23_black_in_160 : ImageData :=
  mkImageData 16 10 (solid 23 0 0 0 ++ solid 137 128 128 128).

(* 16 x 10, 23 white pixels on mid-gray *)
Definition image_23_white_in_160 : ImageData :=
  mkImageData 16 10 (solid 23 255 255 255 ++ solid 137 128 128 128).

(* 29 x 5, all black *)
Definition image_black_29_by_5 : ImageData := mkImageData 29 5 (solid 145 0 0 0).

(* 4 x 4 uniform mid-gray (scenario B) *)
Definition image_gray : ImageData := mkImageData 4 4 (solid 16 128 128 128).

(** * Further functions of the two files *)

Definition Math_floor (x : number) : number := inject_Z (Qfloor x).

(** ** generateIssuesList (imageAnalysis.ts)

    [toFixed1 x] stands for [x.toFixed(1)] and [toString x] for the
    interpolation of a number in a template literal; the lists built do not
    depend on how numbers are printed. *)

(* [issues.push(s)] *)
Definition push (issues : list string) (s : string) : list string := issues ++ [s].

Section IssuesList.
Variable toFixed1 : number -> string.
Variable toString : number -> string.
Local Open Scope string_scope.

Definition generateIssuesList (blackSpots : BlackSpots.t) (damage : Damage.t)
    (healthScore : number) : list string :=
  let issues : list string := [] in
  let issues :=
    if BlackSpots.hasBlackSpots blackSpots then
      if BlackSpots.percentage blackSpots >? 10 then
        push issues ("Severe black spot infestation detected ("
                     ++ toFixed1 (BlackSpots.percentage blackSpots) ++ "% coverage)")
      else if BlackSpots.percentage blackSpots >? 3 then
        push issues ("Moderate black spot presence ("
                     ++ toFixed1 (BlackSpots.percentage blackSpots) ++ "% coverage)")
      else
        push issues ("Minor black spots detected ("
                     ++ toString (BlackSpots.count blackSpots) ++ " spots identified)")
    else issues in
  let issues :=
    if Damage.hasDamage damage then
      if Damage.percentage damage >? 20 then
        push issues ("Extensive leaf damage detected ("
                     ++ toFixed1 (Damage.percentage damage) ++ "% affected)")
      else if Damage.percentage damage >? 10 then
        push issues ("Moderate leaf damage ("
                     ++ toFixed1 (Damage.percentage damage) ++ "% affected)")
      else
        push issues ("Minor leaf damage observed ("
                     ++ toFixed1 (Damage.percentage damage) ++ "% affected)")
    else issues in
  let issues :=
    if (healthScore <? 50)%js
    then push issues "Plant showing signs of severe stress"
    else issues in
  let issues :=
    if (List.length issues =? 0)%nat
    then push issues ("No significant issues detected - plant appears healthy")
    else issues in
  issues.

(* the [detectedIssues] field that [analyzeImage] computes *)
Definition detectedIssues (imageData : ImageData) : list string :=
  let blackSpotAnalysis := detectBlackSpots imageData in
  let damageAnalysis := assessDamage imageData in
  let healthScore := calculateHealthScore blackSpotAnalysis damageAnalysis in
  generateIssuesList blackSpotAnalysis damageAnalysis healthScore.

End IssuesList.

(** ** getHealthStatusEmoji and getUrgencyColor (imageAnalysis.ts) *)

Section Helpers.
Local Open Scope string_scope.

Definition getHealthStatusEmoji (healthScore : number) : string :=
  if healthScore >=? 85 then "🟢"
  else if healthScore >=? 70 then "🟡"
  else if healthScore >=? 50 then "🟠"
  else if healthScore >=? 30 then "🔴"
  else "⚫".

Definition getUrgencyColor (urgency : string) : string :=
  if String.eqb urgency "none" then "text-green-600"
  else if String.eqb urgency "low" then "text-yellow-600"
  else if String.eqb urgency "medium" then "text-orange-600"
  else if String.eqb urgency "high" then "text-red-600"
  else if String.eqb urgency "critical" then "text-red-800"
  else "text-gray-600".

(* the string literal each member of the [urgency] union type stands for *)
Definition urgency_literal (u : Urgency.t) : string :=
  match u with
  | Urgency.none => "none"
  | Urgency.low => "low"
  | Urgency.medium => "medium"
  | Urgency.high => "high"
  | Urgency.critical => "critical"
  end.

(** ** getSeverityColor and getSeverityBg (DiseaseScanner.tsx) *)

Definition getSeverityColor (severity : string) : string :=
  if String.eqb severity "mild" then "text-success"
  else if String.eqb severity "moderate" then "text-cta"
  else if String.eqb severity "severe" then "text-destructive"
  else "text-muted-foreground".

Definition getSeverityBg (severity : string) : string :=
  if String.eqb severity "mild" then "bg-success/10"
  else if String.eqb severity "moderate" then "bg-cta/10"
  else if String.eqb severity "severe" then "bg-destructive/10"
  else "bg-muted/10".

End Helpers.

(** ** scanImage (DiseaseScanner.tsx): the values computed after the analysis *)


Record ProcessingStats := mkProcessingStats {
  stats_analysisTime : number;
  stats_imageQuality : number;
  modelConfidence : number;
  dataPoints : number
}.

Record AlternativeDiagnosis := mkAlternativeDiagnosis {
  alt_name : string;
  probability : number;
  alt_description : string
}.

Record ScanResult := mkScanResult {
  disease : Disease.t;
  plantHealth : number;
  riskLevel : string;
  additionalInfo : string;
  scan_recommendations : list string;
  realTimeAccuracy : number;
  processingStats : ProcessingStats;
  alternativeDiagnoses : list AlternativeDiagnosis
}.

Section ScanResults.
Variable toFixed1 : number -> string.
Variable toString : number -> string.
Local Open Scope string_scope.

(* [enhancedResult]; [issues] is [analysisResult.detectedIssues], [random1]
   and [random2] are the two values of [Math.random()] *)
Definition enhancedResult (random1 random2 : number) (issues : list string)
    (analysisResult : ImageAnalysisResult) : ScanResult :=
  let detectedDisease := selectDiseaseBasedOnAnalysis analysisResult in
  let processingTime := analysisTime analysisResult in
  let imageQuality := imageQuality analysisResult in
  let modelConfidence := Disease.confidence detectedDisease in
  let realAccuracy := Math_min (confidence analysisResult) 98 in
  {| disease := detectedDisease;
     plantHealth := Math_floor (60 + random1 * 30);
     riskLevel := Disease.severity detectedDisease;
     additionalInfo :=
       "🔍 Real analysis: " ++ String.concat ", " issues
       ++ " | Completed in " ++ toFixed1 processingTime
       ++ "s with " ++ toString (Math_floor realAccuracy) ++ "% accuracy";
     scan_recommendations :=
       [ "Monitor plant daily for symptom progression";
         "Apply recommended treatment within 24-48 hours";
         "Isolate affected plants if possible";
         "Document treatment progress with photos" ];
     realTimeAccuracy := Math_floor realAccuracy;
     processingStats :=
       {| stats_analysisTime := processingTime;
          stats_imageQuality := Math_floor imageQuality;
          modelConfidence := Math_floor (modelConfidence * 100);
          dataPoints := Math_floor (800 + random2 * 400) |};
     alternativeDiagnoses :=
       [ {| alt_name := "Nutrient Deficiency"; probability := 15;
            alt_description := "Similar symptoms possible from N/K deficiency" |};
         {| alt_name := "Environmental Stress"; probability := 10;
            alt_description := "Water stress can cause similar leaf patterns" |} ] |}.

End ScanResults.






(** ** Reference notions for the further properties *)

(* the five condition labels and the five urgency labels, from mildest to
   most severe *)
Definition condition_rank (c : Condition) : nat :=
  match c with
  | healthy => 0 | mild_damage => 1 | moderate_damage => 2
  | severe_damage => 3 | critical => 4
  end.

Definition urgency_rank (u : Urgency.t) : nat :=
  match u with
  | Urgency.none => 0 | Urgency.low => 1 | Urgency.medium => 2
  | Urgency.high => 3 | Urgency.critical => 4
  end.

(* the emoji that the comment beside each threshold of [getHealthStatusEmoji]
   associates with a condition *)
Definition condition_emoji (c : Condition) : string :=
  match c with
  | healthy => "🟢" | mild_damage => "🟡" | moderate_damage => "🟠"
  | severe_damage => "🔴" | critical => "⚫"
  end%string.

(** * The numeric steps in double precision

    The definitions above compute with exact rationals.  The module below
    repeats the functions whose results involve a rounded quotient or
    product, with binary64 arithmetic (round to nearest, ties to even) as a
    JavaScript engine performs it, so that the program can be evaluated at a
    concrete input exactly as it runs.  The tallies are integers and are the
    same in both. *)

Set Warnings "-inexact-float".

Module Double.
Local Open Scope float_scope.

(* an integer as a double; exact below 2^53 *)
Fixpoint of_pos (p : positive) : float :=
  match p with
  | xH => 1
  | xO q => 2 * of_pos q
  | xI q => 2 * of_pos q + 1
  end.

Definition of_Z (z : Z) : float :=
  match z with
  | Z0 => 0
  | Zpos p => of_pos p
  | Zneg p => - of_pos p
  end.

Definition two52 : float := 4503599627370496.

(* for 0 <= y < 2^52: the integer nearest to y *)
Definition nearest_nonneg (y : float) : float := (y + two52) - two52.

Definition floor_nonneg (y : float) : float :=
  let t := nearest_nonneg y in if y <? t then t - 1 else t.

Definition ceil_nonneg (y : float) : float :=
  let t := nearest_nonneg y in if t <? y then t + 1 else t.

(* Math.floor; a double of magnitude 2^52 or more is an integer already *)
Definition Math_floor (x : float) : float :=
  if is_nan x || (two52 <=? abs x) || (x =? 0) then x
  else if x <? 0 then - ceil_nonneg (- x) else floor_nonneg x.

Definition Math_ceil (x : float) : float := - Math_floor (- x).

(* Math.round: the integer nearest to x, halves towards +Infinity; the
   fractional part x - floor(x) is exact *)
Definition Math_round (x : float) : float :=
  if is_nan x || (two52 <=? abs x) || (x =? 0) then x
  else
    let f := Math_floor x in
    let r := if 0.5 <=? x - f then f + 1 else f in
    if (r =? 0) && (x <? 0) then - 0 else r.

Definition Math_min (x y : float) : float :=
  if is_nan x then x else if is_nan y then y
  else if x <? y then x else if y <? x then y
  else match classify x with PZero => y | _ => x end.

Definition Math_max (x y : float) : float :=
  if is_nan x then x else if is_nan y then y
  else if x <? y then y else if y <? x then x
  else match classify x with NZero => y | _ => x end.

Module BlackSpots.
Record t := mk { hasBlackSpots : bool; count : float; percentage : float }.
End BlackSpots.

Module Damage.
Record t := mk { hasDamage : bool; percentage : float }.
End Damage.

Fixpoint detectBlackSpots_loop (data : list Z) (blackSpotPixels potentialSpots : Z) : Z * Z :=
  match data with
  | d0 :: d1 :: d2 :: tl =>
      let r := of_Z d0 in
      let g := of_Z d1 in
      let b := of_Z d2 in
      let brightness := (r + g + b) / 3 in
      let colorVariation := abs (r - g) + abs (g - b) + abs (b - r) in
      let blackSpotPixels :=
        if (brightness <? 60) && (colorVariation <? 30)
        then (blackSpotPixels + 1)%Z else blackSpotPixels in
      let potentialSpots :=
        if (brightness <? 100) && (g <? r) && (b <? r) && (40 <? colorVariation)
        then (potentialSpots + 1)%Z else potentialSpots in
      match tl with
      | _ :: rest => detectBlackSpots_loop rest blackSpotPixels potentialSpots
      | [] => (blackSpotPixels, potentialSpots)
      end
  | _ => (blackSpotPixels, potentialSpots)
  end.

Definition detectBlackSpots (imageData : ImageData) : BlackSpots.t :=
  let totalPixels := (width imageData * height imageData)%Z in
  let '(blackSpotPixels, potentialSpots) := detectBlackSpots_loop (data imageData) 0 0 in
  let blackSpotPercentage := (of_Z blackSpotPixels / of_Z totalPixels) * 100 in
  let hasBlackSpots := 0.1 <? blackSpotPercentage in
  let estimatedSpotCount :=
    Math_ceil (of_Z blackSpotPixels / (of_Z (width imageData) * 0.02)) in
  {| BlackSpots.hasBlackSpots := hasBlackSpots;
     BlackSpots.count := if hasBlackSpots then Math_max 1 estimatedSpotCount else 0;
     BlackSpots.percentage := Math_round (blackSpotPercentage * 100) / 100 |}.

Fixpoint assessDamage_loop (data : list Z) (damagedPixels : Z) : Z :=
  match data with
  | d0 :: d1 :: d2 :: tl =>
      let r := of_Z d0 in
      let g := of_Z d1 in
      let b := of_Z d2 in
      let brightness := (r + g + b) / 3 in
      let damagedPixels :=
        if (180 <? r) && (150 <? g) && (b <? 100) && (150 <? brightness)
        then (damagedPixels + 1)%Z else damagedPixels in
      let damagedPixels :=
        if (100 <? r) && (r <? 180) && (50 <? g) && (g <? 130) && (b <? 80)
           && (brightness <? 150)
        then (damagedPixels + 1)%Z else damagedPixels in
      let damagedPixels :=
        if (g <? r * 0.7) && (g <? b * 0.8) && (brightness <? 120)
        then (damagedPixels + 1)%Z else damagedPixels in
      let damagedPixels :=
        if (200 <? brightness) && (abs (r - g) <? 20) && (abs (g - b) <? 20)
        then (damagedPixels + 1)%Z else damagedPixels in
      match tl with
      | _ :: rest => assessDamage_loop rest damagedPixels
      | [] => damagedPixels
      end
  | _ => damagedPixels
  end.

Definition assessDamage (imageData : ImageData) : Damage.t :=
  let totalPixels := (width imageData * height imageData)%Z in
  let damagedPixels := assessDamage_loop (data imageData) 0 in
  let damagePercentage := (of_Z damagedPixels / of_Z totalPixels) * 100 in
  let hasDamage := 0.5 <? damagePercentage in
  {| Damage.hasDamage := hasDamage;
     Damage.percentage := Math_round (damagePercentage * 100) / 100 |}.

Definition calculateHealthScore (blackSpots : BlackSpots.t) (damage : Damage.t) : float :=
  let healthScore := 100 in
  let healthScore :=
    if BlackSpots.hasBlackSpots blackSpots
    then healthScore - Math_min (BlackSpots.percentage blackSpots * 3) 40
    else healthScore in
  let healthScore :=
    if Damage.hasDamage damage
    then healthScore - Math_min (Damage.percentage damage * 2) 50
    else healthScore in
  let healthScore :=
    if (5 <? BlackSpots.percentage blackSpots) && (10 <? Damage.percentage damage)
    then healthScore - 15
    else healthScore in
  Math_max 0 (Math_round healthScore).

(* the health score [analyzeImage] reports *)
Definition healthScore (imageData : ImageData) : float :=
  calculateHealthScore (detectBlackSpots imageData) (assessDamage imageData).

(* the confidence [analyzeImage] reports *)
Definition confidence (random : float) : float := Math_min (90 + random * 8) 98.

End Double.

(** * Properties *)

(** ** Comparisons and rounding of numbers *)

Lemma ltb_lt (x y : Q) : (x <? y) = true <-> x < y.
Proof.
  unfold JS.ltb. rewrite negb_true_iff, <- not_true_iff_false, Qle_bool_iff.
  split; [apply Qnot_le_lt | apply Qlt_not_le].
Qed.

Lemma ltb_ge (x y : Q) : (x <? y) = false <-> y <= x.
Proof.
  unfold JS.ltb. rewrite negb_false_iff. apply Qle_bool_iff.
Qed.

Lemma gtb_gt (x y : Q) : (x >? y) = true <-> y < x.
Proof. apply ltb_lt. Qed.

Lemma gtb_le (x y : Q) : (x >? y) = false <-> x <= y.
Proof. apply ltb_ge. Qed.

Lemma geb_ge (x y : Q) : (x >=? y) = true <-> y <= x.
Proof. apply Qle_bool_iff. Qed.

Lemma geb_lt (x y : Q) : (x >=? y) = false <-> x < y.
Proof.
  unfold JS.geb. rewrite <- not_true_iff_false, Qle_bool_iff.
  split; [apply Qnot_le_lt | apply Qlt_not_le].
Qed.

(* turn the boolean tests of the source found in the context into
   propositions over Q *)
Ltac js_prop :=
  repeat match goal with
  | H : (_ && _) = true |- _ => apply andb_true_iff in H; destruct H
  | H : (_ || _) = false |- _ => apply orb_false_iff in H; destruct H
  | H : negb _ = true |- _ => apply negb_true_iff in H
  | H : negb _ = false |- _ => apply negb_false_iff in H
  | H : (_ <? _) = true |- _ => apply ltb_lt in H
  | H : (_ <? _) = false |- _ => apply ltb_ge in H
  | H : (_ >? _) = true |- _ => apply gtb_gt in H
  | H : (_ >? _) = false |- _ => apply gtb_le in H
  | H : (_ >=? _) = true |- _ => apply geb_ge in H
  | H : (_ >=? _) = false |- _ => apply geb_lt in H
  end.

(* linear arithmetic over Q, with the divisions by numerals made
   multiplications *)
Ltac qlra :=
  unfold Qdiv in *;
  repeat match goal with
  | |- context [/ (Zpos ?p # 1)] => change (/ (Zpos p # 1)) with (1 # p) in *
  | H : context [/ (Zpos ?p # 1)] |- _ => change (/ (Zpos p # 1)) with (1 # p) in *
  end;
  lra.

(* split on a minimum or maximum occurring in the goal *)
Ltac split_minmax :=
  repeat match goal with
  | |- context [Qmin ?a ?b] =>
      let m := fresh "m" in
      destruct (Q.min_spec a b) as [[? ?] | [? ?]];
      set (m := Qmin a b) in *; clearbody m
  | |- context [Qmax ?a ?b] =>
      let m := fresh "m" in
      destruct (Q.max_spec a b) as [[? ?] | [? ?]];
      set (m := Qmax a b) in *; clearbody m
  end.

Lemma Math_round_le (x y : Q) : x <= y -> Math_round x <= Math_round y.
Proof.
  intros H. unfold Math_round. rewrite <- Zle_Qle.
  apply Qfloor_resp_le. lra.
Qed.

Lemma Math_round_Z (z : Z) : Math_round (inject_Z z) = inject_Z z.
Proof.
  unfold Math_round. f_equal.
  assert (L : (z <= Qfloor (inject_Z z + (1 # 2)))%Z).
  { rewrite <- (Qfloor_Z z) at 1. apply Qfloor_resp_le. lra. }
  assert (U : (Qfloor (inject_Z z + (1 # 2)) < z + 1)%Z).
  { rewrite Zlt_Qlt, inject_Z_plus.
    pose proof (Qfloor_le (inject_Z z + (1 # 2))) as F.
    change (inject_Z 1) with 1. lra. }
  lia.
Qed.

#[local] Instance Math_round_comp : Proper (Qeq ==> Qeq) Math_round.
Proof.
  intros x y E. unfold Math_round.
  assert (E' : x + (1 # 2) == y + (1 # 2)) by (rewrite E; reflexivity).
  rewrite (Qfloor_comp _ _ E'). reflexivity.
Qed.


Lemma ratio_bounds (n t c : Z) :
  (0 < t)%Z -> (0 <= n <= c * t)%Z ->
  0 <= inject_Z n / inject_Z t /\ inject_Z n / inject_Z t <= inject_Z c.
Proof.
  intros Ht [Hn Hc].
  assert (Ht' : 0 < inject_Z t) by (change 0 with (inject_Z 0); rewrite <- Zlt_Qlt; exact Ht).
  split.
  - apply Qle_shift_div_l; [exact Ht' |].
    rewrite Qmult_0_l. change 0 with (inject_Z 0). rewrite <- Zle_Qle. exact Hn.
  - apply Qle_shift_div_r; [exact Ht' |].
    rewrite <- inject_Z_mult, <- Zle_Qle. exact Hc.
Qed.

(** ** The per-pixel loops count what the reference predicates describe *)

Lemma data_ind4 (P : list Z -> Prop) :
  P [] -> (forall a, P [a]) -> (forall a b, P [a; b]) -> (forall r g b, P [r; g; b]) ->
  (forall r g b a rest, P rest -> P (r :: g :: b :: a :: rest)) ->
  forall l, P l.
Proof.
  intros H0 H1 H2 H3 H4.
  fix IH 1.
  intros [| r [| g [| b [| a rest]]]];
    [exact H0 | apply H1 | apply H2 | apply H3 | apply H4; apply IH].
Qed.

Lemma indicator_bounds (P : Prop) `{Decision P} : (0 <= indicator P <= 1)%Z.
Proof. unfold indicator. destruct (decide P); lia. Qed.

Lemma indicator_true (P : Prop) `{Decision P} : P -> indicator P = 1%Z.
Proof. intros p. unfold indicator. destruct (decide P); [reflexivity | contradiction]. Qed.

Lemma indicator_false (P : Prop) `{Decision P} : ~ P -> indicator P = 0%Z.
Proof. intros np. unfold indicator. destruct (decide P); [contradiction | reflexivity]. Qed.

Lemma increment_indicator (c : bool) (P : Prop) `{Decision P} (n : Z) :
  (c = true <-> P) -> (if c then n + 1 else n)%Z = (n + indicator P)%Z.
Proof.
  intros E. destruct c.
  - rewrite indicator_true by (apply E; reflexivity). reflexivity.
  - rewrite indicator_false; [lia |]. intros p. apply E in p. discriminate.
Qed.

Lemma detectBlackSpots_loop_counts (data : list Z) :
  forall blackSpotPixels potentialSpots,
    fst (detectBlackSpots_loop data blackSpotPixels potentialSpots)
    = (blackSpotPixels
       + fold_right (fun p n => indicator (is_black_spot p) + n) 0 (pixels data))%Z.
Proof.
  induction data as [| a | a b | r g b | r g b a rest IH] using data_ind4;
    intros n m; cbn [detectBlackSpots_loop pixels fold_right fst]; try lia.
  - rewrite (increment_indicator _ (is_black_spot (rgb r g b))); [lia |].
    unfold is_black_spot, brightness, colorVariation, Math_abs. cbn [red green blue].
    rewrite andb_true_iff, !ltb_lt. reflexivity.
  - rewrite IH.
    rewrite (increment_indicator _ (is_black_spot (rgb r g b))); [lia |].
    unfold is_black_spot, brightness, colorVariation, Math_abs. cbn [red green blue].
    rewrite andb_true_iff, !ltb_lt. reflexivity.
Qed.

Lemma assessDamage_step (r g b : Z) (n : Z) :
  let R := inject_Z r in
  let G := inject_Z g in
  let B := inject_Z b in
  let brightness := (R + G + B) / 3 in
  let n1 := if (R >? 180) && (G >? 150) && (B <? 100) && (brightness >? 150)
            then (n + 1)%Z else n in
  let n2 := if (R >? 100) && (R <? 180) && (G >? 50) && (G <? 130) && (B <? 80)
               && (brightness <? 150)
            then (n1 + 1)%Z else n1 in
  let n3 := if (G <? R * 0.7) && (G <? B * 0.8) && (brightness <? 120)
            then (n2 + 1)%Z else n2 in
  let n4 := if (brightness >? 200) && (Math_abs (R - G) <? 20) && (Math_abs (G - B) <? 20)
            then (n3 + 1)%Z else n3 in
  n4 = (n + damage_matches (rgb r g b))%Z.
Proof.
  intros R G B br n1 n2 n3 n4. subst n4 n3 n2 n1.
  rewrite (increment_indicator _ (white_patch (rgb r g b))).
  2:{ unfold white_patch, brightness, Math_abs. cbn [red green blue].
      rewrite !andb_true_iff, gtb_gt, !ltb_lt. tauto. }
  rewrite (increment_indicator _ (wilting (rgb r g b))).
  2:{ unfold wilting, brightness. cbn [red green blue].
      rewrite !andb_true_iff, !ltb_lt. tauto. }
  rewrite (increment_indicator _ (browning (rgb r g b))).
  2:{ unfold browning, brightness. cbn [red green blue].
      rewrite !andb_true_iff, !gtb_gt, !ltb_lt. tauto. }
  rewrite (increment_indicator _ (yellowing (rgb r g b))).
  2:{ unfold yellowing, brightness. cbn [red green blue].
      rewrite !andb_true_iff, !gtb_gt, !ltb_lt. tauto. }
  unfold damage_matches. lia.
Qed.

Lemma assessDamage_loop_counts (data : list Z) :
  forall damagedPixels,
    assessDamage_loop data damagedPixels
    = (damagedPixels + fold_right (fun p n => damage_matches p + n) 0 (pixels data))%Z.
Proof.
  induction data as [| a | a b | r g b | r g b a rest IH] using data_ind4;
    intros n; cbn [assessDamage_loop pixels fold_right]; try lia.
  - cbv zeta. rewrite (assessDamage_step r g b n). lia.
  - cbv zeta. rewrite IH, (assessDamage_step r g b n). lia.
Qed.

Lemma pixels_length (data : list Z) :
  (4 * Z.of_nat (List.length (pixels data)) <= Z.of_nat (List.length data) + 1)%Z.
Proof.
  induction data as [| a | a b | r g b | r g b a rest IH] using data_ind4;
    cbn [pixels List.length]; lia.
Qed.

Lemma tally_bounds (f : Pixel -> Z) (c : Z) (l : list Pixel) :
  (forall p, 0 <= f p <= c)%Z ->
  (0 <= fold_right (fun p n => f p + n) 0 l <= c * Z.of_nat (List.length l))%Z.
Proof.
  intros Hf. induction l as [| p l IH]; cbn [fold_right List.length].
  - lia.
  - specialize (Hf p). nia.
Qed.

(** Only browning and wilting can hold of the same pixel. *)
Lemma damage_matches_bounds (p : Pixel) : (0 <= damage_matches p <= 2)%Z.
Proof.
  unfold damage_matches.
  pose proof (indicator_bounds (yellowing p)) as Hy.
  pose proof (indicator_bounds (browning p)) as Hb.
  pose proof (indicator_bounds (wilting p)) as Hw.
  pose proof (indicator_bounds (white_patch p)) as Hp.
  destruct (decide (yellowing p)) as [Y | Y].
  - rewrite (indicator_false (browning p)), (indicator_false (wilting p)),
      (indicator_false (white_patch p)); [lia | | |].
    + unfold yellowing, white_patch in *. intros (? & ? & W).
      apply Qabs_Qlt_condition in W. lra.
    + unfold yellowing, wilting in *. intros (? & ? & ?). lra.
    + unfold yellowing, browning in *. intros ((? & ?) & ?). lra.
  - destruct (decide (white_patch p)) as [W | W].
    + rewrite (indicator_false (browning p)), (indicator_false (wilting p)); [lia | |].
      * unfold white_patch, wilting in *. intros (? & ? & ?). lra.
      * unfold white_patch, browning in *. intros (? & ? & ? & ?). lra.
    + rewrite (indicator_false _ Y), (indicator_false _ W). lia.
Qed.

Lemma blackSpotPixelCount_bounds (imageData : ImageData) :
  well_formed imageData ->
  (0 <= blackSpotPixelCount imageData <= 1 * (width imageData * height imageData))%Z.
Proof.
  intros (Hw & Hh & Hl & _). unfold blackSpotPixelCount.
  pose proof (tally_bounds (fun p => indicator (is_black_spot p)) 1 (pixels (data imageData))
                (fun p => indicator_bounds _)) as T.
  pose proof (pixels_length (data imageData)). lia.
Qed.

Lemma damagedPixelTally_bounds (imageData : ImageData) :
  well_formed imageData ->
  (0 <= damagedPixelTally imageData <= 2 * (width imageData * height imageData))%Z.
Proof.
  intros (Hw & Hh & Hl & _). unfold damagedPixelTally.
  pose proof (tally_bounds damage_matches 2 (pixels (data imageData))
                damage_matches_bounds) as T.
  pose proof (pixels_length (data imageData)). lia.
Qed.

(** ** The statistics in terms of the pixel counts *)

Lemma detectBlackSpots_unfold (imageData : ImageData) :
  detectBlackSpots imageData =
  let n := blackSpotPixelCount imageData in
  let pct := (inject_Z n / inject_Z (width imageData * height imageData)) * 100 in
  {| BlackSpots.hasBlackSpots := pct >? 0.1;
     BlackSpots.count :=
       if pct >? 0.1
       then Math_max 1 (Math_ceil (inject_Z n / (inject_Z (width imageData) * 0.02)))
       else 0;
     BlackSpots.percentage := Math_round (pct * 100) / 100 |}.
Proof.
  unfold detectBlackSpots, blackSpotPixelCount.
  pose proof (detectBlackSpots_loop_counts (data imageData) 0 0) as C.
  destruct (detectBlackSpots_loop (data imageData) 0 0) as [n m].
  cbn [fst] in C. rewrite Z.add_0_l in C. subst n. reflexivity.
Qed.

Lemma assessDamage_unfold (imageData : ImageData) :
  assessDamage imageData =
  let n := damagedPixelTally imageData in
  let pct := (inject_Z n / inject_Z (width imageData * height imageData)) * 100 in
  {| Damage.hasDamage := pct >? 0.5;
     Damage.percentage := Math_round (pct * 100) / 100 |}.
Proof.
  unfold assessDamage, damagedPixelTally.
  rewrite (assessDamage_loop_counts (data imageData) 0), Z.add_0_l. reflexivity.
Qed.




Lemma rounded_percentage_bounds (n t c : Z) :
  (0 < t)%Z -> (0 <= n <= c * t)%Z ->
  let pct := (inject_Z n / inject_Z t) * 100 in
  0 <= Math_round (pct * 100) / 100 /\ Math_round (pct * 100) / 100 <= 100 * inject_Z c.
Proof.
  intros Ht Hn.
  destruct (ratio_bounds n t c Ht Hn) as [L U].
  generalize dependent (inject_Z n / inject_Z t). intros x L U pct. subst pct.
  assert (L' : Math_round (inject_Z 0) <= Math_round (x * 100 * 100)).
  { apply Math_round_le. change (inject_Z 0) with 0. lra. }
  assert (U' : Math_round (x * 100 * 100) <= Math_round (inject_Z (10000 * c))).
  { apply Math_round_le. rewrite inject_Z_mult.
    change (inject_Z 10000) with 10000. lra. }
  rewrite Math_round_Z in L', U'. rewrite inject_Z_mult in U'.
  change (inject_Z 0) with 0 in L'. change (inject_Z 10000) with 10000 in U'.
  split; qlra.
Qed.

Lemma detectBlackSpots_percentage_bounds (imageData : ImageData) :
  well_formed imageData ->
  0 <= BlackSpots.percentage (detectBlackSpots imageData) <= 100.
Proof.
  intros WF. rewrite detectBlackSpots_unfold. cbn.
  pose proof (blackSpotPixelCount_bounds imageData WF) as B.
  destruct WF as (Hw & Hh & _).
  assert (Ht : (0 < width imageData * height imageData)%Z) by lia.
  destruct (rounded_percentage_bounds _ _ 1 Ht B) as [L U].
  change (inject_Z 1) with 1 in U. split; lra.
Qed.

Lemma assessDamage_percentage_bounds (imageData : ImageData) :
  well_formed imageData ->
  0 <= Damage.percentage (assessDamage imageData) <= 200.
Proof.
  intros WF. rewrite assessDamage_unfold. cbn.
  pose proof (damagedPixelTally_bounds imageData WF) as B.
  destruct WF as (Hw & Hh & _).
  assert (Ht : (0 < width imageData * height imageData)%Z) by lia.
  destruct (rounded_percentage_bounds _ _ 2 Ht B) as [L U].
  change (inject_Z 2) with 2 in U. split; lra.
Qed.

(** ** The health score *)


Lemma Math_round_100 : Math_round 100 = 100.
Proof. reflexivity. Qed.

Lemma calculateHealthScore_nonneg (blackSpots : BlackSpots.t) (damage : Damage.t) :
  0 <= calculateHealthScore blackSpots damage.
Proof. unfold calculateHealthScore, Math_max. apply Q.le_max_l. Qed.

Lemma calculateHealthScore_raw (blackSpots : BlackSpots.t) (damage : Damage.t) :
  calculateHealthScore blackSpots damage == Qmax 0 (Math_round (rawScore blackSpots damage)).
Proof.
  unfold calculateHealthScore, rawScore, Math_max, Math_min.
  apply Q.max_compat; [reflexivity |]. apply Math_round_comp.
  destruct (BlackSpots.hasBlackSpots blackSpots), (Damage.hasDamage damage),
    ((BlackSpots.percentage blackSpots >? 5) && (Damage.percentage damage >? 10)); ring.
Qed.

Lemma rawScore_le_100 (blackSpots : BlackSpots.t) (damage : Damage.t) :
  0 <= BlackSpots.percentage blackSpots -> 0 <= Damage.percentage damage ->
  rawScore blackSpots damage <= 100.
Proof.
  intros Hb Hd. unfold rawScore.
  destruct (BlackSpots.hasBlackSpots blackSpots), (Damage.hasDamage damage),
    ((BlackSpots.percentage blackSpots >? 5) && (Damage.percentage damage >? 10));
    split_minmax; lra.
Qed.

Lemma calculateHealthScore_le_100 (blackSpots : BlackSpots.t) (damage : Damage.t) :
  0 <= BlackSpots.percentage blackSpots -> 0 <= Damage.percentage damage ->
  calculateHealthScore blackSpots damage <= 100.
Proof.
  intros Hb Hd. rewrite calculateHealthScore_raw.
  apply Q.max_lub; [lra |].
  rewrite <- Math_round_100. apply Math_round_le. apply rawScore_le_100; assumption.
Qed.



Lemma rawScore_monotone (hasBlackSpots : bool) (count1 count2 p1 p2 : Q) (damage : Damage.t) :
  p1 <= p2 ->
  rawScore (BlackSpots.mk hasBlackSpots count2 p2) damage
  <= rawScore (BlackSpots.mk hasBlackSpots count1 p1) damage.
Proof.
  intros H. unfold rawScore.
  cbn [BlackSpots.hasBlackSpots BlackSpots.percentage].
  assert (D : Qmin (p1 * 3) 40 <= Qmin (p2 * 3) 40) by (apply Q.min_le_compat_r; lra).
  assert (C : (if (p1 >? 5) && (Damage.percentage damage >? 10) then 15 else 0)
              <= (if (p2 >? 5) && (Damage.percentage damage >? 10) then 15 else 0)).
  { destruct (p1 >? 5) eqn:E1, (p2 >? 5) eqn:E2, (Damage.percentage damage >? 10);
      cbn [andb]; js_prop; lra. }
  destruct hasBlackSpots; lra.
Qed.

(** ** Claims *)

(** C1 (amended).  For every well-formed input image the reported
    blackSpotPercentage lies in [0,100] and healthScore lies in [0,100]; the
    reported damagePercentage lies in [0,200], because a pixel that is both
    brown and wilted is tallied twice. *)
Theorem analysis_ranges (random elapsed : Q) (imageData : ImageData) :
  well_formed imageData ->
  let result := analyzeImage random elapsed imageData in
  0 <= blackSpotPercentage result <= 100 /\
  0 <= damagePercentage result <= 200 /\
  0 <= healthScore result <= 100.
Proof.
  intros WF result. subst result.
  cbn [analyzeImage blackSpotPercentage damagePercentage healthScore].
  pose proof (detectBlackSpots_percentage_bounds imageData WF) as B.
  pose proof (assessDamage_percentage_bounds imageData WF) as D.
  repeat split; try tauto.
  - apply calculateHealthScore_nonneg.
  - apply calculateHealthScore_le_100; tauto.
Qed.

Lemma analysis_ranges_witness :
  let result := analyzeImage 0 0 image_brown_wilted in
  0 <= blackSpotPercentage result <= 100 /\
  0 <= damagePercentage result <= 200 /\
  0 <= healthScore result <= 100.
Proof.
  apply (analysis_ranges 0 0 image_brown_wilted).
  vm_compute. repeat split.
Defined.

(** C1, as stated, fails: the 1 x 1 image whose pixel is (110, 55, 75)
    matches the browning and the wilting test, so damagePercentage is 200. *)
Lemma damagePercentage_exceeds_100 :
  well_formed image_brown_wilted /\
  damagePercentage (analyzeImage 0 0 image_brown_wilted) == 200 /\
  ~ damagePercentage (analyzeImage 0 0 image_brown_wilted) <= 100.
Proof.
  split; [vm_compute; repeat split |].
  split; [vm_compute; reflexivity |].
  vm_compute. intros H. apply H. reflexivity.
Qed.








(** C8.  With hasBlackSpots, hasDamage and damagePercentage fixed, the health
    score never increases when blackSpotPercentage increases. *)
Theorem healthScore_monotone (hasBlackSpots : bool) (count1 count2 p1 p2 : Q)
    (damage : Damage.t) :
  p1 <= p2 ->
  calculateHealthScore (BlackSpots.mk hasBlackSpots count2 p2) damage
  <= calculateHealthScore (BlackSpots.mk hasBlackSpots count1 p1) damage.
Proof.
  intros H. rewrite !calculateHealthScore_raw.
  apply Q.max_le_compat_l. apply Math_round_le.
  apply rawScore_monotone. exact H.
Qed.

Lemma healthScore_monotone_witness :
  calculateHealthScore (BlackSpots.mk true 1 5.01) (Damage.mk true 12)
  <= calculateHealthScore (BlackSpots.mk true 1 5) (Damage.mk true 12).
Proof.
  apply (healthScore_monotone true 1 1 5 5.01 (Damage.mk true 12)).
  vm_compute. discriminate.
Defined.

(** C4.  overallCondition is determined by healthScore, hasBlackSpots and
    hasDamage alone, through a first-match ladder: healthy when
    healthScore >= 85 with neither black spots nor damage; else mild_damage
    when healthScore >= 70; else moderate_damage when healthScore >= 50; else
    severe_damage when healthScore >= 30; else critical. *)
Theorem condition_ladder (score : Q) (spots damaged : bool) :
  let c := determineOverallCondition score spots damaged in
  let top := 85 <= score /\ spots = false /\ damaged = false in
  (top -> c = healthy) /\
  (~ top -> 70 <= score -> c = mild_damage) /\
  (~ top -> ~ 70 <= score -> 50 <= score -> c = moderate_damage) /\
  (~ top -> ~ 70 <= score -> ~ 50 <= score -> 30 <= score -> c = severe_damage) /\
  (~ top -> ~ 70 <= score -> ~ 50 <= score -> ~ 30 <= score -> c = critical) /\
  (forall random elapsed imageData,
     let r := analyzeImage random elapsed imageData in
     overallCondition r
     = determineOverallCondition (healthScore r) (hasBlackSpots r) (hasDamage r)).
Proof.
  intros c top. subst c top. unfold determineOverallCondition.
  assert (T : (score >=? 85) && negb spots && negb damaged = true
              <-> 85 <= score /\ spots = false /\ damaged = false).
  { rewrite !andb_true_iff, !negb_true_iff, geb_ge. tauto. }
  destruct ((score >=? 85) && negb spots && negb damaged).
  - assert (Top : 85 <= score /\ spots = false /\ damaged = false) by (apply T; reflexivity).
    repeat split; intros; first [reflexivity | contradiction].
  - assert (NTop : ~ (85 <= score /\ spots = false /\ damaged = false)).
    { intros H. apply T in H. discriminate. }
    clear T.
    destruct (score >=? 70) eqn:E70; js_prop;
      [repeat split; intros; first [reflexivity | contradiction] |].
    apply Qlt_not_le in E70.
    destruct (score >=? 50) eqn:E50; js_prop;
      [repeat split; intros; first [reflexivity | contradiction] |].
    apply Qlt_not_le in E50.
    destruct (score >=? 30) eqn:E30; js_prop;
      [repeat split; intros; first [reflexivity | contradiction] |].
    apply Qlt_not_le in E30.
    repeat split; intros; first [reflexivity | contradiction].
Qed.

(* closed comparisons of numbers, their negations and conjunctions *)
Ltac qdecide :=
  vm_compute;
  first [ reflexivity
        | discriminate
        | let H := fresh in intro H; apply H; reflexivity
        | intuition discriminate ].

Lemma condition_ladder_witness :
  determineOverallCondition 100 false false = healthy /\
  determineOverallCondition 100 true false = mild_damage /\
  determineOverallCondition 60 false false = moderate_damage /\
  determineOverallCondition 30 false true = severe_damage /\
  determineOverallCondition 29 false false = critical.
Proof.
  split; [| split; [| split; [| split]]].
  - apply (condition_ladder 100 false false). qdecide.
  - apply (condition_ladder 100 true false); qdecide.
  - apply (condition_ladder 60 false false); qdecide.
  - apply (condition_ladder 30 false true); qdecide.
  - apply (condition_ladder 29 false false); qdecide.
Defined.

(** C7.  The condition classifier and the urgency classifier disagree near
    the boundary: there is an image (20 x 15, 28 black pixels on gray) whose
    analysis has healthScore = 72, hasBlackSpots and
    blackSpotPercentage >= 5, for which overallCondition is mild_damage while
    the plant-health assessment's urgency is medium. *)
Theorem classifiers_disagree :
  exists imageData : ImageData,
    well_formed imageData /\
    forall random elapsed : Q,
      let r := analyzeImage random elapsed imageData in
      healthScore r == 72 /\
      hasBlackSpots r = true /\
      5 <= blackSpotPercentage r /\
      overallCondition r = mild_damage /\
      urgency (assessPlantHealth r) = Urgency.medium /\
      isHealthy (assessPlantHealth r) = false.
Proof.
  exists image_28_black_in_300. split; [vm_compute; repeat split |].
  intros random elapsed r. subst r.
  unfold assessPlantHealth.
  cbn [analyzeImage healthScore hasBlackSpots blackSpotPercentage overallCondition
       hasDamage damagePercentage].
  repeat split; try (vm_compute; reflexivity).
  vm_compute. discriminate.
Qed.

(** ** The disease selector *)

Lemma first_branch_iff (r : ImageAnalysisResult) :
  hasBlackSpots r && (blackSpotPercentage r >? 2) = true
  <-> hasBlackSpots r = true /\ 2 < blackSpotPercentage r.
Proof. rewrite andb_true_iff, gtb_gt. reflexivity. Qed.

Lemma second_branch_iff (r : ImageAnalysisResult) :
  hasDamage r && (damagePercentage r >? 10) = true
  <-> hasDamage r = true /\ 10 < damagePercentage r.
Proof. rewrite andb_true_iff, gtb_gt. reflexivity. Qed.







(** C9.  Whenever the overall condition of an analysis result is healthy, the
    selector returns the Healthy Plant entry, with confidence 0.95: the
    premises of healthy rule out the three disease branches.  The converse
    fails: the analysis of a 32 x 30 image with a single black pixel has
    hasBlackSpots, blackSpotPercentage <= 2 and healthScore >= 85, hence
    selects Healthy Plant, while its overall condition is mild_damage. *)
Theorem healthy_selects_healthy_plant :
  (forall r : ImageAnalysisResult,
     determineOverallCondition (healthScore r) (hasBlackSpots r) (hasDamage r) = healthy ->
     selectDiseaseBasedOnAnalysis r = healthyPlant (analysisTime r) /\
     Disease.name (selectDiseaseBasedOnAnalysis r) = "Healthy Plant"%string /\
     Disease.confidence (selectDiseaseBasedOnAnalysis r) = 0.95) /\
  (forall random elapsed imageData,
     let r := analyzeImage random elapsed imageData in
     overallCondition r = healthy ->
     selectDiseaseBasedOnAnalysis r = healthyPlant elapsed) /\
  (exists r : ImageAnalysisResult,
     selectDiseaseBasedOnAnalysis r = healthyPlant (analysisTime r) /\
     hasBlackSpots r = true /\ blackSpotPercentage r <= 2 /\ 85 <= healthScore r /\
     overallCondition r = mild_damage /\
     overallCondition r
     = determineOverallCondition (healthScore r) (hasBlackSpots r) (hasDamage r)).
Proof.
  assert (Main : forall r : ImageAnalysisResult,
    determineOverallCondition (healthScore r) (hasBlackSpots r) (hasDamage r) = healthy ->
    selectDiseaseBasedOnAnalysis r = healthyPlant (analysisTime r)).
  { intros r. unfold determineOverallCondition, selectDiseaseBasedOnAnalysis.
    destruct ((healthScore r >=? 85) && negb (hasBlackSpots r) && negb (hasDamage r)) eqn:T.
    - intros _. js_prop. rewrite H1, H0. cbn [andb].
      assert (E : (healthScore r <? 60) = false) by (apply ltb_ge; lra).
      apply geb_ge in H. rewrite E, H. reflexivity.
    - destruct (healthScore r >=? 70), (healthScore r >=? 50), (healthScore r >=? 30);
        discriminate. }
  split; [| split].
  - intros r H. rewrite (Main r H). repeat split.
  - intros random elapsed imageData r H. apply (Main r H).
  - exists (analyzeImage 0 0 image_one_black_in_960).
    cbn [analyzeImage healthScore hasBlackSpots blackSpotPercentage overallCondition
         hasDamage damagePercentage analysisTime].
    split; [vm_compute; reflexivity |].
    split; [vm_compute; reflexivity |].
    split; [vm_compute; discriminate |].
    split; [vm_compute; discriminate |].
    split; [vm_compute; reflexivity | reflexivity].
Qed.

Lemma healthy_selects_healthy_plant_witness :
  let r := analyzeImage 0 (1 # 5) image_gray in
  selectDiseaseBasedOnAnalysis r = healthyPlant (analysisTime r) /\
  Disease.name (selectDiseaseBasedOnAnalysis r) = "Healthy Plant"%string /\
  Disease.confidence (selectDiseaseBasedOnAnalysis r) = 0.95.
Proof.
  intros r.
  apply (proj1 healthy_selects_healthy_plant r).
  vm_compute. reflexivity.
Defined.

(** ** Black-spot and damage statistics *)


Lemma Qmax_inject_Z (a b : Z) : Qmax (inject_Z a) (inject_Z b) == inject_Z (Z.max a b).
Proof.
  destruct (Z.max_spec a b) as [[H E] | [H E]]; rewrite E.
  - apply Q.max_r. rewrite <- Zle_Qle. lia.
  - apply Q.max_l. rewrite <- Zle_Qle. lia.
Qed.









(** The direction of rounding at a tie, and the spot count at an integer
    quotient, as the program computes them in doubles: 23 matching pixels of
    160 are 14.375 percent, which in doubles is 14.374999999999998 and is
    reported as 14.37 where rounding halves up gives 14.38; 145 black pixels
    at width 29 give the quotient 250.00000000000003, hence a spot count of
    251 where the exact ceiling is 250. *)
Lemma rounding_ties_in_doubles :
  (round2 (100 * inject_Z (blackSpotPixelCount image_23_black_in_160)
           / totalPixels image_23_black_in_160) == 14.38 /\
   Double.BlackSpots.percentage (Double.detectBlackSpots image_23_black_in_160)
   = 14.37%float) /\
  (round2 (100 * inject_Z (damagedPixelTally image_23_white_in_160)
           / totalPixels image_23_white_in_160) == 14.38 /\
   Double.Damage.percentage (Double.assessDamage image_23_white_in_160)
   = 14.37%float) /\
  (inject_Z (blackSpotPixelCount image_black_29_by_5)
   / (inject_Z (width image_black_29_by_5) * 0.02) == 250 /\
   Double.BlackSpots.count (Double.detectBlackSpots image_black_29_by_5)
   = 251%float).
Proof.
  repeat split; vm_compute; reflexivity.
Qed.

(** ** Image quality *)

Lemma for_range_invariant {S : Type} (I : S -> Prop) (lo hi : Z) (body : Z -> S -> S) (s : S) :
  (forall i s, (lo <= i < hi)%Z -> I s -> I (body i s)) ->
  I s -> I (for_range lo hi body s).
Proof.
  unfold for_range. intros Step.
  assert (G : forall (l : list nat) (s : S),
             (forall k, In k l -> (lo <= lo + Z.of_nat k < hi)%Z) -> I s ->
             I (fold_left (fun s k => body (lo + Z.of_nat k)%Z s) l s)).
  { induction l as [| k l IH]; intros s0 Hl Hs; cbn [fold_left]; [exact Hs |].
    apply IH.
    - intros k' Hk'. apply Hl. right. exact Hk'.
    - apply Step; [apply Hl; left; reflexivity | exact Hs]. }
  intros Hs. apply G; [| exact Hs].
  intros k Hk. apply in_seq in Hk. lia.
Qed.

(** Every sample read by [assessImageQuality] lies inside [data]. *)
Lemma quality_reads_in_range (imageData : ImageData) (y x : Z) :
  well_formed imageData ->
  (1 <= y < height imageData - 1)%Z -> (1 <= x < width imageData - 1)%Z ->
  let w := width imageData in
  let len := Z.of_nat (List.length (data imageData)) in
  (0 <= (y * w + x) * 4)%Z /\
  ((y * w + x) * 4 + 6 < len)%Z /\
  (0 <= (y + 1) * w * 4 + x * 4)%Z /\
  ((y + 1) * w * 4 + x * 4 + 2 < len)%Z.
Proof.
  intros (Hw & Hh & Hl & _) Hy Hx w len. subst w len. rewrite Hl.
  repeat split; nia.
Qed.

Lemma assessImageQuality_body_nonneg (data : list Z) (width y x : Z) (acc : Z * Q) :
  (0 <= fst acc)%Z /\ 0 <= snd acc ->
  (0 <= fst (assessImageQuality_body data width y x acc))%Z /\
  0 <= snd (assessImageQuality_body data width y x acc).
Proof.
  destruct acc as [edgePixels totalContrast]. cbn [fst snd]. intros [He Ht].
  unfold assessImageQuality_body, Math_abs.
  set (current := (get data ((y * width + x) * 4) + _ + _) / 3).
  set (right := (get data ((y * width + x) * 4 + 4) + _ + _) / 3).
  set (bottom := (get data ((y + 1) * width * 4 + x * 4) + _ + _) / 3).
  pose proof (Qabs_nonneg (current - right)) as A1.
  pose proof (Qabs_nonneg (current - bottom)) as A2.
  cbn [fst snd]. split.
  - destruct (_ >? 30); lia.
  - lra.
Qed.

Lemma quality_score_range (sharpness avgContrast : Q) :
  0 <= sharpness -> 0 <= avgContrast ->
  50 <= Math_min (50 + Math_min (sharpness * 2) 30 + Math_min (avgContrast / 5) 20) 95 <= 95.
Proof.
  intros Hs Hc. unfold Math_min.
  assert (A : 0 <= Qmin (sharpness * 2) 30) by (apply Q.min_glb; lra).
  assert (B : 0 <= Qmin (avgContrast / 5) 20) by (apply Q.min_glb; qlra).
  split.
  - apply Q.min_glb; lra.
  - apply Q.le_min_r.
Qed.

Lemma assessImageQuality_range (imageData : ImageData) :
  well_formed imageData ->
  50 <= assessImageQuality imageData <= 95.
Proof.
  intros (Hw & Hh & _). unfold assessImageQuality.
  set (loops := for_range 1 (height imageData - 1) _ (0%Z, 0)).
  assert (I : (0 <= fst loops)%Z /\ 0 <= snd loops).
  { subst loops.
    apply (for_range_invariant (fun acc => (0 <= fst acc)%Z /\ 0 <= snd acc));
      [| cbn [fst snd]; split; [lia | lra]].
    intros y acc _ Hacc.
    apply (for_range_invariant (fun acc => (0 <= fst acc)%Z /\ 0 <= snd acc));
      [| exact Hacc].
    intros x acc' _ Hacc'. apply assessImageQuality_body_nonneg. exact Hacc'. }
  destruct loops as [edgePixels totalContrast]. cbn [fst snd] in I. destruct I as [He Ht].
  assert (Tpos : 0 < inject_Z (width imageData * height imageData)).
  { change 0 with (inject_Z 0). rewrite <- Zlt_Qlt. lia. }
  apply quality_score_range.
  - apply Qmult_le_0_compat; [| lra].
    apply Qle_shift_div_l; [exact Tpos |].
    rewrite Qmult_0_l. change 0 with (inject_Z 0). rewrite <- Zle_Qle. exact He.
  - apply Qle_shift_div_l; [exact Tpos |]. rewrite Qmult_0_l. exact Ht.
Qed.

(** C10.  For every well-formed input image the computed imageQuality lies
    in [50,95]: the score starts at 50, the sharpness and contrast components
    are non-negative (and capped at 30 and 20), and the total is capped at
    95. *)
Theorem imageQuality_range (random elapsed : Q) (imageData : ImageData) :
  well_formed imageData ->
  50 <= imageQuality (analyzeImage random elapsed imageData) <= 95.
Proof.
  intros WF. cbn [analyzeImage imageQuality].
  apply assessImageQuality_range. exact WF.
Qed.

Lemma imageQuality_range_witness :
  50 <= imageQuality (analyzeImage 0 0 image_28_black_in_300) <= 95.
Proof.
  apply (imageQuality_range 0 0 image_28_black_in_300).
  vm_compute. repeat split.
Defined.

(** * Further properties *)

(** ** The plant-health assessment *)

(** X1.  The assessment calls a plant healthy exactly in its two mildest
    tiers (urgency none or low), which requires a health score of at least
    70; it always reports the health score as healthPercentage and gives
    four recommendations. *)
Theorem isHealthy_iff_mild_urgency (r : ImageAnalysisResult) :
  let a := assessPlantHealth r in
  (isHealthy a = true <-> urgency a = Urgency.none \/ urgency a = Urgency.low) /\
  (isHealthy a = true -> 70 <= healthScore r) /\
  healthPercentage a = healthScore r /\
  List.length (recommendations a) = 4%nat.
Proof.
  unfold assessPlantHealth.
  destruct ((healthScore r >=? 85) && negb (hasBlackSpots r) && negb (hasDamage r)) eqn:T;
    [| destruct ((healthScore r >=? 70)
                 && (negb (hasBlackSpots r) || (blackSpotPercentage r <? 5))) eqn:L;
       [| destruct ((healthScore r >=? 50)
                    && ((blackSpotPercentage r <? 15) || (damagePercentage r <? 20)));
          [| destruct ((healthScore r >=? 30)
                       && ((blackSpotPercentage r <? 30) || (damagePercentage r <? 40)))]]];
    cbn [isHealthy urgency healthPercentage recommendations List.length];
    (split; [split; [intros H | intros [H | H]]; try discriminate; auto |]);
    (split; [| split; reflexivity]); intros H; try discriminate; js_prop; lra.
Qed.

Lemma isHealthy_iff_mild_urgency_witness :
  70 <= healthScore (analyzeImage 0 0 image_3_black_in_100).
Proof.
  apply (isHealthy_iff_mild_urgency (analyzeImage 0 0 image_3_black_in_100)).
  vm_compute. reflexivity.
Defined.

(** X2.  The urgency of the assessment is never milder than the overall
    condition computed from the same result (ranking both five-tier scales
    from mildest to most severe), and it is none exactly when the condition
    is healthy. *)
Theorem urgency_never_milder_than_condition (r : ImageAnalysisResult) :
  let c := determineOverallCondition (healthScore r) (hasBlackSpots r) (hasDamage r) in
  let u := urgency (assessPlantHealth r) in
  (condition_rank c <= urgency_rank u)%nat /\
  (u = Urgency.none <-> c = healthy).
Proof.
  unfold assessPlantHealth, determineOverallCondition.
  destruct ((healthScore r >=? 85) && negb (hasBlackSpots r) && negb (hasDamage r)).
  { cbn. split; [lia | tauto]. }
  destruct (healthScore r >=? 70), (healthScore r >=? 50), (healthScore r >=? 30),
    (negb (hasBlackSpots r) || (blackSpotPercentage r <? 5)),
    ((blackSpotPercentage r <? 15) || (damagePercentage r <? 20)),
    ((blackSpotPercentage r <? 30) || (damagePercentage r <? 40));
    cbn; (split; [lia | split; discriminate]).
Qed.

(** ** The display helpers *)

(** X3.  getHealthStatusEmoji shows the emoji of the overall condition
    whenever the health score is below 85 or neither flag is set; with a
    score of 85 or more and a flag set it shows the green (healthy) emoji
    although the overall condition is mild_damage. *)
Theorem emoji_versus_condition (score : Q) (spots damaged : bool) :
  (score < 85 \/ (spots = false /\ damaged = false) ->
   getHealthStatusEmoji score
   = condition_emoji (determineOverallCondition score spots damaged)) /\
  (85 <= score -> spots = true \/ damaged = true ->
   getHealthStatusEmoji score = condition_emoji healthy /\
   determineOverallCondition score spots damaged = mild_damage).
Proof.
  unfold getHealthStatusEmoji, determineOverallCondition. split.
  - intros H.
    destruct (score >=? 85) eqn:E85; js_prop.
    + destruct H as [H | [-> ->]]; [lra | reflexivity].
    + cbn [andb].
      destruct (score >=? 70), (score >=? 50), (score >=? 30); reflexivity.
  - intros H F. apply geb_ge in H as E85. rewrite E85.
    assert (E70 : (score >=? 70) = true) by (apply geb_ge; lra).
    rewrite E70. destruct F as [-> | ->]; [| destruct spots]; split; reflexivity.
Qed.

Lemma emoji_versus_condition_witness :
  getHealthStatusEmoji 60 = condition_emoji (determineOverallCondition 60 true false) /\
  (getHealthStatusEmoji 91 = condition_emoji healthy /\
   determineOverallCondition 91 true false = mild_damage).
Proof.
  split.
  - apply (proj1 (emoji_versus_condition 60 true false)). left. reflexivity.
  - apply (proj2 (emoji_versus_condition 91 true false)); [discriminate | left; reflexivity].
Defined.

(** X4.  getUrgencyColor gives the five urgency labels five different
    classes, none of them the gray class it falls back to for any other
    string. *)
Theorem urgency_colors_distinct :
  (forall u v : Urgency.t,
     getUrgencyColor (urgency_literal u) = getUrgencyColor (urgency_literal v) -> u = v) /\
  (forall u : Urgency.t, getUrgencyColor (urgency_literal u) <> "text-gray-600"%string) /\
  (forall s : string,
     (forall u : Urgency.t, s <> urgency_literal u) ->
     getUrgencyColor s = "text-gray-600"%string).
Proof.
  split; [| split].
  - intros [] []; cbn; intros H; first [reflexivity | discriminate H].
  - intros []; cbn; discriminate.
  - intros s H. unfold getUrgencyColor.
    destruct (String.eqb_spec s "none") as [E | _]; [exfalso; exact (H Urgency.none E) |].
    destruct (String.eqb_spec s "low") as [E | _]; [exfalso; exact (H Urgency.low E) |].
    destruct (String.eqb_spec s "medium") as [E | _]; [exfalso; exact (H Urgency.medium E) |].
    destruct (String.eqb_spec s "high") as [E | _]; [exfalso; exact (H Urgency.high E) |].
    destruct (String.eqb_spec s "critical") as [E | _];
      [exfalso; exact (H Urgency.critical E) |].
    reflexivity.
Qed.

Lemma urgency_colors_distinct_witness :
  getUrgencyColor "urgent" = "text-gray-600"%string.
Proof.
  apply (proj2 (proj2 urgency_colors_distinct) "urgent"%string).
  intros []; discriminate.
Defined.

(** ** Flags, reported percentages and the score on analyzer results *)

Lemma reported_of_flag_false (pct threshold : Q) (k : Z) :
  threshold * 100 == inject_Z k ->
  (pct >? threshold) = false -> Math_round (pct * 100) / 100 <= threshold.
Proof.
  intros K F. apply gtb_le in F.
  assert (R : Math_round (pct * 100) <= Math_round (inject_Z k))
    by (apply Math_round_le; lra).
  rewrite Math_round_Z in R.
  generalize dependent (Math_round (pct * 100)). intros m R. qlra.
Qed.

Lemma reported_of_flag_true (pct threshold : Q) (k : Z) :
  threshold * 100 == inject_Z k ->
  (pct >? threshold) = true -> threshold <= Math_round (pct * 100) / 100.
Proof.
  intros K F. apply gtb_gt in F.
  assert (R : Math_round (inject_Z k) <= Math_round (pct * 100))
    by (apply Math_round_le; lra).
  rewrite Math_round_Z in R.
  generalize dependent (Math_round (pct * 100)). intros m R. qlra.
Qed.

Lemma blackSpots_flag_and_percentage (imageData : ImageData) :
  let s := detectBlackSpots imageData in
  (BlackSpots.hasBlackSpots s = true -> 0.1 <= BlackSpots.percentage s) /\
  (BlackSpots.hasBlackSpots s = false -> BlackSpots.percentage s <= 0.1).
Proof.
  rewrite detectBlackSpots_unfold. cbn. split; intros F.
  - apply (reported_of_flag_true _ _ 10); [reflexivity | exact F].
  - apply (reported_of_flag_false _ _ 10); [reflexivity | exact F].
Qed.

Lemma damage_flag_and_percentage (imageData : ImageData) :
  let s := assessDamage imageData in
  (Damage.hasDamage s = true -> 0.5 <= Damage.percentage s) /\
  (Damage.hasDamage s = false -> Damage.percentage s <= 0.5).
Proof.
  rewrite assessDamage_unfold. cbn. split; intros F.
  - apply (reported_of_flag_true _ _ 50); [reflexivity | exact F].
  - apply (reported_of_flag_false _ _ 50); [reflexivity | exact F].
Qed.

Lemma score_at_least (blackSpots : BlackSpots.t) (damage : Damage.t) (k : Z) :
  inject_Z k <= rawScore blackSpots damage ->
  inject_Z k <= calculateHealthScore blackSpots damage.
Proof.
  intros H. rewrite calculateHealthScore_raw.
  apply Qle_trans with (Math_round (rawScore blackSpots damage)); [| apply Q.le_max_r].
  rewrite <- (Math_round_Z k). apply Math_round_le. exact H.
Qed.

Lemma score_at_most (blackSpots : BlackSpots.t) (damage : Damage.t) (k : Z) :
  (0 <= k)%Z -> rawScore blackSpots damage <= inject_Z k ->
  calculateHealthScore blackSpots damage <= inject_Z k.
Proof.
  intros K H. rewrite calculateHealthScore_raw.
  apply Q.max_lub.
  - change 0 with (inject_Z 0). rewrite <- Zle_Qle. exact K.
  - rewrite <- (Math_round_Z k). apply Math_round_le. exact H.
Qed.

(** X5.  On the analysis of a well-formed image each flag brackets the
    reported percentage on one side only: hasBlackSpots implies a reported
    blackSpotPercentage of at least 0.1 and its absence one of at most 0.1,
    so a reported percentage above 0.1 implies the flag; likewise for
    hasDamage and 0.5. *)
Theorem flags_bracket_reported_percentages (random elapsed : Q) (imageData : ImageData) :
  well_formed imageData ->
  let r := analyzeImage random elapsed imageData in
  (hasBlackSpots r = true -> 0.1 <= blackSpotPercentage r) /\
  (hasBlackSpots r = false -> blackSpotPercentage r <= 0.1) /\
  (0.1 < blackSpotPercentage r -> hasBlackSpots r = true) /\
  (hasDamage r = true -> 0.5 <= damagePercentage r) /\
  (hasDamage r = false -> damagePercentage r <= 0.5) /\
  (0.5 < damagePercentage r -> hasDamage r = true).
Proof.
  intros _ r. subst r.
  cbn [analyzeImage hasBlackSpots blackSpotPercentage hasDamage damagePercentage].
  destruct (blackSpots_flag_and_percentage imageData) as [B1 B0].
  destruct (damage_flag_and_percentage imageData) as [D1 D0].
  repeat split; try assumption.
  - intros H. destruct (BlackSpots.hasBlackSpots (detectBlackSpots imageData));
      [reflexivity | specialize (B0 eq_refl); lra].
  - intros H. destruct (Damage.hasDamage (assessDamage imageData));
      [reflexivity | specialize (D0 eq_refl); lra].
Qed.

Lemma flags_bracket_reported_percentages_witness :
  0.1 <= blackSpotPercentage (analyzeImage 0 0 image_one_black_in_960).
Proof.
  assert (WF : well_formed image_one_black_in_960) by (vm_compute; repeat split).
  apply (proj1 (flags_bracket_reported_percentages 0 0 image_one_black_in_960 WF)).
  vm_compute. reflexivity.
Defined.

Lemma no_compounding_without_damage_branch (imageData : ImageData) :
  let bs := detectBlackSpots imageData in
  let dm := assessDamage imageData in
  Damage.hasDamage dm && (Damage.percentage dm >? 10) = false ->
  (Damage.percentage dm >? 10) = false.
Proof.
  intros bs dm H. subst bs dm.
  destruct (Damage.hasDamage (assessDamage imageData)) eqn:F; [exact H |].
  apply gtb_le. apply (damage_flag_and_percentage imageData) in F. lra.
Qed.

Lemma score_without_disease_branches (imageData : ImageData) :
  let bs := detectBlackSpots imageData in
  let dm := assessDamage imageData in
  BlackSpots.hasBlackSpots bs && (BlackSpots.percentage bs >? 2) = false ->
  Damage.hasDamage dm && (Damage.percentage dm >? 10) = false ->
  74 <= calculateHealthScore bs dm.
Proof.
  intros bs dm H1 H2.
  pose proof (no_compounding_without_damage_branch imageData H2) as D10. fold dm in D10.
  apply (score_at_least bs dm 74). unfold rawScore. rewrite D10, andb_false_r.
  change (inject_Z 74) with 74.
  destruct (BlackSpots.hasBlackSpots bs), (Damage.hasDamage dm);
    cbn [andb] in H1, H2; js_prop; split_minmax; lra.
Qed.

(** X6.  On the analysis of a well-formed image the Bacterial Leaf Spot
    branch of the selector is never taken: when neither the black-spot nor
    the damage branch fires the health score is at least 74, so the
    [healthScore < 60] test fails. *)
Theorem bacterial_leaf_spot_never_selected (random elapsed : Q) (imageData : ImageData) :
  well_formed imageData ->
  let r := analyzeImage random elapsed imageData in
  (~ (hasBlackSpots r = true /\ 2 < blackSpotPercentage r) ->
   ~ (hasDamage r = true /\ 10 < damagePercentage r) ->
   74 <= healthScore r) /\
  Disease.name (selectDiseaseBasedOnAnalysis r) <> "Bacterial Leaf Spot"%string.
Proof.
  intros _ r.
  assert (S : hasBlackSpots r && (blackSpotPercentage r >? 2) = false ->
              hasDamage r && (damagePercentage r >? 10) = false ->
              74 <= healthScore r).
  { subst r. cbn [analyzeImage hasBlackSpots blackSpotPercentage hasDamage
                  damagePercentage healthScore].
    apply score_without_disease_branches. }
  split.
  - intros N1 N2. apply S; apply not_true_iff_false.
    + rewrite first_branch_iff. exact N1.
    + rewrite second_branch_iff. exact N2.
  - unfold selectDiseaseBasedOnAnalysis.
    destruct (hasBlackSpots r && (blackSpotPercentage r >? 2)); [cbn; discriminate |].
    destruct (hasDamage r && (damagePercentage r >? 10)); [cbn; discriminate |].
    specialize (S eq_refl eq_refl).
    assert (E : (healthScore r <? 60) = false) by (apply ltb_ge; lra).
    rewrite E. destruct (healthScore r >=? 85); cbn; discriminate.
Qed.

Lemma bacterial_leaf_spot_never_selected_witness :
  74 <= healthScore (analyzeImage 0 0 image_10_white_in_100) /\
  Disease.name (selectDiseaseBasedOnAnalysis (analyzeImage 0 0 image_10_white_in_100))
  <> "Bacterial Leaf Spot"%string.
Proof.
  destruct (bacterial_leaf_spot_never_selected 0 0 image_10_white_in_100) as [S N].
  - vm_compute. repeat split.
  - split; [| exact N]. apply S; vm_compute; intros [H1 H2]; discriminate.
Defined.

Lemma flags_of_large_percentages (imageData : ImageData) :
  let bs := detectBlackSpots imageData in
  let dm := assessDamage imageData in
  (0.1 < BlackSpots.percentage bs -> BlackSpots.hasBlackSpots bs = true) /\
  (0.5 < Damage.percentage dm -> Damage.hasDamage dm = true).
Proof.
  intros bs dm. subst bs dm. split; intros H.
  - destruct (BlackSpots.hasBlackSpots (detectBlackSpots imageData)) eqn:F; [reflexivity |].
    apply (blackSpots_flag_and_percentage imageData) in F. lra.
  - destruct (Damage.hasDamage (assessDamage imageData)) eqn:F; [reflexivity |].
    apply (damage_flag_and_percentage imageData) in F. lra.
Qed.

Lemma heavy_damage_low_score (imageData : ImageData) :
  let bs := detectBlackSpots imageData in
  let dm := assessDamage imageData in
  15 <= BlackSpots.percentage bs -> 20 <= Damage.percentage dm ->
  calculateHealthScore bs dm <= 5.
Proof.
  intros bs dm Hb Hd.
  destruct (flags_of_large_percentages imageData) as [Fb Fd]. fold bs dm in Fb, Fd.
  apply (score_at_most bs dm 5); [lia |]. unfold rawScore.
  rewrite Fb, Fd by lra.
  assert (G5 : (BlackSpots.percentage bs >? 5) = true) by (apply gtb_gt; lra).
  assert (G10 : (Damage.percentage dm >? 10) = true) by (apply gtb_gt; lra).
  rewrite G5, G10. cbn [andb]. change (inject_Z 5) with 5.
  split_minmax; lra.
Qed.

Lemma urgency_by_score (r : ImageAnalysisResult) :
  (50 <= healthScore r ->
   (blackSpotPercentage r <? 15) || (damagePercentage r <? 20) = true) ->
  (30 <= healthScore r ->
   (blackSpotPercentage r <? 30) || (damagePercentage r <? 40) = true) ->
  let u := urgency (assessPlantHealth r) in
  (u = Urgency.critical <-> healthScore r < 30) /\
  (u = Urgency.high <-> 30 <= healthScore r /\ healthScore r < 50) /\
  (u = Urgency.medium <->
   50 <= healthScore r /\
   (healthScore r < 70 \/ (hasBlackSpots r = true /\ 5 <= blackSpotPercentage r))).
Proof.
  intros G50 G30. unfold assessPlantHealth.
  destruct ((healthScore r >=? 85) && negb (hasBlackSpots r) && negb (hasDamage r)) eqn:T.
  { js_prop. cbn [urgency].
    repeat split; intros; try discriminate; try lra.
    exfalso. intuition (congruence || lra). }
  destruct (healthScore r >=? 70) eqn:E70; js_prop.
  - destruct (negb (hasBlackSpots r) || (blackSpotPercentage r <? 5)) eqn:L; cbn [andb].
    + cbn [urgency]. apply orb_true_iff in L.
      repeat split; intros; try discriminate; try lra.
      exfalso. destruct L; js_prop; intuition (congruence || lra).
    + js_prop.
      assert (E50 : (healthScore r >=? 50) = true) by (apply geb_ge; lra).
      rewrite E50, G50 by lra. cbn [andb urgency].
      repeat split; intros; try discriminate; try lra; auto.
  - cbn [andb].
    destruct (healthScore r >=? 50) eqn:E50; js_prop.
    + rewrite G50 by lra. cbn [andb urgency].
      repeat split; intros; try discriminate; try lra; auto.
    + cbn [andb].
      destruct (healthScore r >=? 30) eqn:E30; js_prop.
      * rewrite G30 by lra. cbn [andb urgency].
        repeat split; intros; try discriminate; try lra.
      * cbn [andb urgency].
        repeat split; intros; try discriminate; try lra.
Qed.

(** X7.  On the analysis of a well-formed image the percentage guards of the
    medium and high urgency tiers never fail, so the three severe tiers are
    decided by the health score (and, for medium, the black-spot guard of the
    low tier): critical iff healthScore < 30, high iff 30 <= healthScore < 50,
    medium iff healthScore >= 50 and either healthScore < 70 or the image has
    black spots covering at least 5 percent. *)
Theorem urgency_of_analysis (random elapsed : Q) (imageData : ImageData) :
  well_formed imageData ->
  let r := analyzeImage random elapsed imageData in
  let u := urgency (assessPlantHealth r) in
  (u = Urgency.critical <-> healthScore r < 30) /\
  (u = Urgency.high <-> 30 <= healthScore r /\ healthScore r < 50) /\
  (u = Urgency.medium <->
   50 <= healthScore r /\
   (healthScore r < 70 \/ (hasBlackSpots r = true /\ 5 <= blackSpotPercentage r))).
Proof.
  intros _ r.
  assert (H : forall a b : Q,
             15 <= a -> 20 <= b -> 30 <= healthScore r ->
             (blackSpotPercentage r <? a) || (damagePercentage r <? b) = true).
  { intros a b Ha Hb Hs.
    destruct (blackSpotPercentage r <? a) eqn:Ea; [reflexivity |].
    destruct (damagePercentage r <? b) eqn:Eb; [reflexivity |].
    exfalso. js_prop.
    assert (L : healthScore r <= 5).
    { subst r. cbn [analyzeImage healthScore blackSpotPercentage damagePercentage] in *.
      apply heavy_damage_low_score; lra. }
    lra. }
  apply (urgency_by_score r); intros Hs; apply H; lra.
Qed.

Lemma urgency_of_analysis_witness :
  urgency (assessPlantHealth (analyzeImage 0 0 image_28_black_in_300)) = Urgency.medium.
Proof.
  assert (WF : well_formed image_28_black_in_300) by (vm_compute; repeat split).
  apply (proj2 (proj2 (proj2 (urgency_of_analysis 0 0 image_28_black_in_300 WF)))).
  split; [vm_compute; discriminate |].
  right. split; vm_compute; [reflexivity | discriminate].
Defined.

(** ** Confidence values *)

Lemma selector_confidence_values (r : ImageAnalysisResult) :
  90 <= confidence r ->
  let c := Disease.confidence (selectDiseaseBasedOnAnalysis r) in
  c == 0.75 \/ c == 0.82 \/ c == 0.88 \/ (0.9 <= c /\ c <= 0.95).
Proof.
  intros L. unfold selectDiseaseBasedOnAnalysis, Math_min.
  destruct (hasBlackSpots r && (blackSpotPercentage r >? 2));
    [| destruct (hasDamage r && (damagePercentage r >? 10));
       [| destruct (healthScore r <? 60); [| destruct (healthScore r >=? 85)]]];
    cbn [Disease.confidence Disease.with_confidence healthyPlant].
  - right. right. right.
    destruct (Q.min_spec 0.95 (confidence r / 100)) as [[? E] | [? E]];
      rewrite E; split; qlra.
  - right. right. left. apply Q.min_l. qlra.
  - right. left. apply Q.min_l. qlra.
  - right. right. right. split; lra.
  - left. apply Q.min_l. qlra.
Qed.

Lemma analysis_confidence_bounds (random elapsed : Q) (imageData : ImageData) :
  0 <= random -> random < 1 ->
  90 <= confidence (analyzeImage random elapsed imageData)
  /\ confidence (analyzeImage random elapsed imageData) <= 98.
Proof.
  intros L U. cbn [analyzeImage confidence]. unfold Math_min. split.
  - apply Q.min_glb; lra.
  - apply Q.le_min_r.
Qed.

(** X8.  With Math.random() in [0,1) the confidence of an analysis lies in
    [90,98] (in doubles 90 + random * 8 reaches 98 for the largest random
    value, see [confidence_reaches_98_in_doubles]).  The confidence of the
    selected disease is then 0.75, 0.82 or 0.88 (the analysis confidence never
    lowers those caps) or lies in [0.90,0.95]. *)
Theorem confidence_of_analysis (random elapsed : Q) (imageData : ImageData) :
  0 <= random -> random < 1 ->
  let r := analyzeImage random elapsed imageData in
  let c := Disease.confidence (selectDiseaseBasedOnAnalysis r) in
  90 <= confidence r /\ confidence r <= 98 /\
  (c == 0.75 \/ c == 0.82 \/ c == 0.88 \/ (0.9 <= c /\ c <= 0.95)).
Proof.
  intros L U r.
  destruct (analysis_confidence_bounds random elapsed imageData L U) as [L' U'].
  split; [exact L' |]. split; [exact U' |].
  apply selector_confidence_values. exact L'.
Qed.

Lemma confidence_of_analysis_witness :
  let r := analyzeImage (1 # 2) 0 image_3_black_in_100 in
  let c := Disease.confidence (selectDiseaseBasedOnAnalysis r) in
  90 <= confidence r /\ confidence r <= 98 /\
  (c == 0.75 \/ c == 0.82 \/ c == 0.88 \/ (0.9 <= c /\ c <= 0.95)).
Proof.
  apply (confidence_of_analysis (1 # 2) 0 image_3_black_in_100).
  - discriminate.
  - reflexivity.
Defined.

(* the largest double below 1 is a value Math.random() can return *)
Lemma confidence_reaches_98_in_doubles :
  (PrimFloat.ltb (1 - 0x1p-52) 1 = true /\ Double.confidence (1 - 0x1p-52) = 98)%float.
Proof. split; vm_compute; reflexivity. Qed.

(** ** The scan result *)

Lemma Math_floor_bounds (x : Q) (a b : Z) :
  inject_Z a <= x -> x < inject_Z (b + 1) ->
  inject_Z a <= Math_floor x /\ Math_floor x <= inject_Z b.
Proof.
  intros L U. unfold Math_floor. rewrite <- !Zle_Qle.
  assert (La : (a <= Qfloor x)%Z).
  { rewrite <- (Qfloor_Z a). apply Qfloor_resp_le. exact L. }
  assert (Ub : (Qfloor x < b + 1)%Z).
  { rewrite Zlt_Qlt. apply Qle_lt_trans with x; [apply Qfloor_le | exact U]. }
  lia.
Qed.

(** X9.  For an analysis of a well-formed image, with all three values of
    Math.random() in [0,1), the displayed numbers of the scan result lie in
    fixed ranges: plantHealth in [60,90] and dataPoints in [800,1200]
    whatever the analysis, realTimeAccuracy in [90,98], modelConfidence in
    [75,95] and the displayed image quality in [50,95]; riskLevel is the
    severity of the selected disease. *)
Theorem scan_result_ranges (toFixed1 toString : Q -> string) (random random1 random2 elapsed : Q)
    (issues : list string) (imageData : ImageData) :
  well_formed imageData ->
  0 <= random < 1 -> 0 <= random1 < 1 -> 0 <= random2 < 1 ->
  let r := analyzeImage random elapsed imageData in
  let s := enhancedResult toFixed1 toString random1 random2 issues r in
  let stats := processingStats s in
  60 <= plantHealth s <= 90 /\
  800 <= dataPoints stats <= 1200 /\
  90 <= realTimeAccuracy s <= 98 /\
  75 <= modelConfidence stats <= 95 /\
  50 <= stats_imageQuality stats <= 95 /\
  riskLevel s = Disease.severity (selectDiseaseBasedOnAnalysis r).
Proof.
  intros WF [R0 R1] [A0 A1] [B0 B1] r s stats.
  destruct (analysis_confidence_bounds random elapsed imageData R0 R1) as [CL CU].
  pose proof (selector_confidence_values r CL) as DC.
  fold r in CL, CU. cbv zeta in DC.
  pose proof (assessImageQuality_range imageData WF) as [QL QU].
  subst stats s. unfold enhancedResult.
  cbn [plantHealth processingStats dataPoints realTimeAccuracy modelConfidence
       stats_imageQuality riskLevel].
  split; [| split; [| split; [| split; [| split]]]].
  - apply (Math_floor_bounds _ 60 90); change (inject_Z 60) with 60;
      change (inject_Z (90 + 1)) with 91; lra.
  - apply (Math_floor_bounds _ 800 1200); change (inject_Z 800) with 800;
      change (inject_Z (1200 + 1)) with 1201; lra.
  - unfold Math_min.
    assert (E : Qmin (confidence r) 98 == confidence r) by (apply Q.min_l; lra).
    apply (Math_floor_bounds _ 90 98); rewrite E; change (inject_Z 90) with 90;
      change (inject_Z (98 + 1)) with 99; lra.
  - apply (Math_floor_bounds _ 75 95); change (inject_Z 75) with 75;
      change (inject_Z (95 + 1)) with 96;
      destruct DC as [E | [E | [E | [? ?]]]]; try rewrite E; lra.
  - subst r. cbn [analyzeImage imageQuality].
    apply (Math_floor_bounds _ 50 95); change (inject_Z 50) with 50;
      change (inject_Z (95 + 1)) with 96; lra.
  - reflexivity.
Qed.

Lemma scan_result_ranges_witness :
  let r := analyzeImage (1 # 2) 0 image_3_black_in_100 in
  let s := enhancedResult (fun _ => EmptyString) (fun _ => EmptyString) (1 # 3) (2 # 3) [] r in
  90 <= realTimeAccuracy s <= 98.
Proof.
  assert (WF : well_formed image_3_black_in_100) by (vm_compute; repeat split).
  apply (scan_result_ranges (fun _ => EmptyString) (fun _ => EmptyString)
           (1 # 2) (1 # 3) (2 # 3) 0 [] image_3_black_in_100 WF);
    split; first [discriminate | reflexivity].
Defined.

(** ** Granularity and bounds of the reported statistics *)


(** X10.  Every analysis reports values on a fixed grid: healthScore and
    blackSpotCount are integers (healthScore a non-negative one), and the two
    percentages are whole multiples of 0.01. *)
Theorem reported_values_granularity (random elapsed : Q) (imageData : ImageData) :
  let r := analyzeImage random elapsed imageData in
  (exists z : Z, (0 <= z)%Z /\ healthScore r == inject_Z z) /\
  (exists z : Z, blackSpotCount r == inject_Z z) /\
  (exists z : Z, blackSpotPercentage r * 100 == inject_Z z) /\
  (exists z : Z, damagePercentage r * 100 == inject_Z z).
Proof.
  intros r. subst r.
  cbn [analyzeImage healthScore blackSpotCount blackSpotPercentage damagePercentage].
  split; [| split; [| split]].
  - unfold calculateHealthScore, Math_max, Math_round.
    eexists. split; [| change 0 with (inject_Z 0); apply Qmax_inject_Z]. lia.
  - rewrite detectBlackSpots_unfold. cbn.
    destruct (_ >? 0.1).
    + unfold Math_max, Math_ceil. eexists.
      change 1 with (inject_Z 1). apply Qmax_inject_Z.
    + exists 0%Z. reflexivity.
  - rewrite detectBlackSpots_unfold. cbn. unfold Math_round.
    eexists. unfold Qdiv. change (/ 100) with (1 # 100).
    rewrite <- Qmult_assoc. change ((1 # 100) * 100) with (100 # 100).
    setoid_replace (100 # 100) with 1 by reflexivity. apply Qmult_1_r.
  - rewrite assessDamage_unfold. cbn. unfold Math_round.
    eexists. unfold Qdiv. change (/ 100) with (1 # 100).
    rewrite <- Qmult_assoc. change ((1 # 100) * 100) with (100 # 100).
    setoid_replace (100 # 100) with 1 by reflexivity. apply Qmult_1_r.
Qed.

(* in the exact model the count is at most height / 0.02 *)
Lemma blackSpotCount_exact_bound (imageData : ImageData) :
  well_formed imageData ->
  BlackSpots.hasBlackSpots (detectBlackSpots imageData) = true ->
  1 <= BlackSpots.count (detectBlackSpots imageData)
  /\ BlackSpots.count (detectBlackSpots imageData) <= 50 * inject_Z (height imageData).
Proof.
  intros WF. pose proof (blackSpotPixelCount_bounds imageData WF) as [N0 N1].
  destruct WF as (Hw & Hh & _).
  rewrite detectBlackSpots_unfold. cbn. intros F. rewrite F.
  unfold Math_max, Math_ceil. split; [apply Q.le_max_l |].
  assert (Hh1 : 1 <= 50 * inject_Z (height imageData)).
  { assert (H1 : inject_Z 1 <= inject_Z (height imageData)) by (rewrite <- Zle_Qle; lia).
    change (inject_Z 1) with 1 in H1. lra. }
  apply Q.max_lub; [exact Hh1 |].
  change 50 with (inject_Z 50). rewrite <- inject_Z_mult, <- Zle_Qle.
  rewrite <- (Qceiling_Z (50 * height imageData)). apply Qceiling_resp_le.
  assert (Wpos : 0 < inject_Z (width imageData) * 0.02).
  { assert (H0 : inject_Z 0 < inject_Z (width imageData)) by (rewrite <- Zlt_Qlt; lia).
    change (inject_Z 0) with 0 in H0. lra. }
  apply Qle_shift_div_r; [exact Wpos |].
  assert (Hn : inject_Z (blackSpotPixelCount imageData)
               <= inject_Z (width imageData * height imageData))
    by (rewrite <- Zle_Qle; lia).
  rewrite !inject_Z_mult in *. change (inject_Z 50) with 50.
  generalize dependent (inject_Z (blackSpotPixelCount imageData)).
  intros n _ Hn.
  setoid_replace (50 * inject_Z (height imageData) * (inject_Z (width imageData) * 0.02))
    with (inject_Z (width imageData) * inject_Z (height imageData)) by ring.
  exact Hn.
Qed.

(** X11.  For a well-formed image with black spots the estimated spot count
    is at least 1 and at most 50 times the image height plus 1: every pixel a
    spot gives the quotient height / 0.02, and rounding in the division can
    push the ceiling one above it (see [rounding_ties_in_doubles]). *)
Theorem blackSpotCount_bounds (imageData : ImageData) :
  well_formed imageData ->
  BlackSpots.hasBlackSpots (detectBlackSpots imageData) = true ->
  1 <= BlackSpots.count (detectBlackSpots imageData)
  /\ BlackSpots.count (detectBlackSpots imageData) <= 50 * inject_Z (height imageData) + 1.
Proof.
  intros WF F. destruct (blackSpotCount_exact_bound imageData WF F) as [L U].
  split; [exact L | lra].
Qed.

Lemma blackSpotCount_bounds_witness :
  1 <= BlackSpots.count (detectBlackSpots image_28_black_in_300)
  /\ BlackSpots.count (detectBlackSpots image_28_black_in_300)
     <= 50 * inject_Z (height image_28_black_in_300) + 1.
Proof.
  apply (blackSpotCount_bounds image_28_black_in_300).
  - vm_compute. repeat split.
  - vm_compute. reflexivity.
Defined.

(** ** End-to-end behaviour on extreme images *)

Lemma rounded_percentage_of (pct : Q) (k : Z) :
  pct == inject_Z k -> Math_round (pct * 100) / 100 == inject_Z k.
Proof.
  intros E.
  assert (E' : pct * 100 == inject_Z (k * 100))
    by (rewrite E, inject_Z_mult; reflexivity).
  rewrite (Math_round_comp _ _ E'), Math_round_Z, inject_Z_mult.
  change (inject_Z 100) with 100. unfold Qdiv. change (/ 100) with (1 # 100).
  rewrite <- Qmult_assoc. setoid_replace (100 * (1 # 100)) with 1 by reflexivity.
  apply Qmult_1_r.
Qed.

Lemma assessDamage_none (imageData : ImageData) :
  damagedPixelTally imageData = 0%Z ->
  Damage.hasDamage (assessDamage imageData) = false /\
  Damage.percentage (assessDamage imageData) == 0.
Proof.
  intros Z0. rewrite assessDamage_unfold. cbn. rewrite Z0.
  set (pct := inject_Z 0 / _ * 100).
  assert (E : pct == inject_Z 0) by (subst pct; unfold Qdiv; change (inject_Z 0) with 0; ring).
  split.
  - apply gtb_le. rewrite E. discriminate.
  - apply (rounded_percentage_of pct 0 E).
Qed.

Lemma detectBlackSpots_none (imageData : ImageData) :
  blackSpotPixelCount imageData = 0%Z ->
  BlackSpots.hasBlackSpots (detectBlackSpots imageData) = false /\
  BlackSpots.percentage (detectBlackSpots imageData) == 0.
Proof.
  intros Z0. rewrite detectBlackSpots_unfold. cbn. rewrite Z0.
  set (pct := inject_Z 0 / _ * 100).
  assert (E : pct == inject_Z 0) by (subst pct; unfold Qdiv; change (inject_Z 0) with 0; ring).
  split.
  - apply gtb_le. rewrite E. discriminate.
  - apply (rounded_percentage_of pct 0 E).
Qed.

Lemma detectBlackSpots_all (imageData : ImageData) :
  well_formed imageData ->
  blackSpotPixelCount imageData = (width imageData * height imageData)%Z ->
  BlackSpots.hasBlackSpots (detectBlackSpots imageData) = true /\
  BlackSpots.percentage (detectBlackSpots imageData) == 100.
Proof.
  intros (Hw & Hh & _) A. rewrite detectBlackSpots_unfold. cbn. rewrite A.
  set (t := inject_Z (width imageData * height imageData)).
  assert (T : 0 < t).
  { subst t. change 0 with (inject_Z 0). rewrite <- Zlt_Qlt. lia. }
  assert (E : t / t * 100 == inject_Z 100).
  { change (inject_Z 100) with 100. field. lra. }
  split.
  - apply gtb_gt. rewrite E. reflexivity.
  - apply (rounded_percentage_of _ 100 E).
Qed.

(** X12.  A well-formed image in which no pixel matches the black-spot test
    or any damage test is reported as fully healthy: both flags false, both
    percentages 0, healthScore 100, overall condition healthy, urgency none,
    and the selector returns the Healthy Plant entry. *)
Theorem clean_image_is_healthy (random elapsed : Q) (imageData : ImageData) :
  well_formed imageData ->
  blackSpotPixelCount imageData = 0%Z ->
  damagedPixelTally imageData = 0%Z ->
  let r := analyzeImage random elapsed imageData in
  hasBlackSpots r = false /\ blackSpotPercentage r == 0 /\
  hasDamage r = false /\ damagePercentage r == 0 /\
  healthScore r == 100 /\
  overallCondition r = healthy /\
  urgency (assessPlantHealth r) = Urgency.none /\
  isHealthy (assessPlantHealth r) = true /\
  selectDiseaseBasedOnAnalysis r = healthyPlant elapsed.
Proof.
  intros _ B D r.
  destruct (detectBlackSpots_none imageData B) as [FB PB].
  destruct (assessDamage_none imageData D) as [FD PD].
  assert (S : healthScore r == 100).
  { subst r. cbn [analyzeImage healthScore]. rewrite calculateHealthScore_raw.
    assert (R : rawScore (detectBlackSpots imageData) (assessDamage imageData) == 100).
    { unfold rawScore. rewrite FB, FD.
      assert (G : (BlackSpots.percentage (detectBlackSpots imageData) >? 5) = false)
        by (apply gtb_le; lra).
      rewrite G. cbn [andb]. ring. }
    rewrite (Math_round_comp _ _ R). reflexivity. }
  assert (E85 : (healthScore r >=? 85) = true) by (apply geb_ge; lra).
  assert (E60 : (healthScore r <? 60) = false) by (apply ltb_ge; lra).
  assert (HB : hasBlackSpots r = false) by exact FB.
  assert (HD : hasDamage r = false) by exact FD.
  split; [exact HB |]. split; [exact PB |]. split; [exact HD |]. split; [exact PD |].
  split; [exact S |].
  assert (C : determineOverallCondition (healthScore r) (hasBlackSpots r) (hasDamage r)
              = healthy).
  { unfold determineOverallCondition. rewrite E85, HB, HD. reflexivity. }
  split; [exact C |].
  unfold assessPlantHealth, selectDiseaseBasedOnAnalysis.
  rewrite E85, E60, HB, HD. cbn [andb negb urgency isHealthy].
  repeat split.
Qed.

Lemma clean_image_is_healthy_witness :
  let r := analyzeImage 0 (1 # 5) image_gray in
  hasBlackSpots r = false /\ blackSpotPercentage r == 0 /\
  hasDamage r = false /\ damagePercentage r == 0 /\
  healthScore r == 100 /\
  overallCondition r = healthy /\
  urgency (assessPlantHealth r) = Urgency.none /\
  isHealthy (assessPlantHealth r) = true /\
  selectDiseaseBasedOnAnalysis r = healthyPlant (1 # 5).
Proof.
  apply (clean_image_is_healthy 0 (1 # 5) image_gray).
  - vm_compute. repeat split.
  - vm_compute. reflexivity.
  - vm_compute. reflexivity.
Defined.

(** X13.  A well-formed image in which every pixel matches the black-spot
    test and none matches a damage test is reported with
    blackSpotPercentage 100 and healthScore 60 (the black-spot deduction is
    capped at 40): overall condition moderate_damage, urgency medium, and
    the selector returns Black Spot Disease. *)
Theorem all_spots_image (random elapsed : Q) (imageData : ImageData) :
  well_formed imageData ->
  blackSpotPixelCount imageData = (width imageData * height imageData)%Z ->
  damagedPixelTally imageData = 0%Z ->
  let r := analyzeImage random elapsed imageData in
  hasBlackSpots r = true /\ blackSpotPercentage r == 100 /\
  healthScore r == 60 /\
  overallCondition r = moderate_damage /\
  urgency (assessPlantHealth r) = Urgency.medium /\
  selectDiseaseBasedOnAnalysis r
  = Disease.with_confidence blackSpotDisease (Qmin 0.95 (confidence r / 100)).
Proof.
  intros WF B D r.
  destruct (detectBlackSpots_all imageData WF B) as [FB PB].
  destruct (assessDamage_none imageData D) as [FD PD].
  assert (HB : hasBlackSpots r = true) by exact FB.
  assert (HD : hasDamage r = false) by exact FD.
  assert (PB' : blackSpotPercentage r == 100) by exact PB.
  assert (PD' : damagePercentage r == 0) by exact PD.
  assert (S : healthScore r == 60).
  { subst r. cbn [analyzeImage healthScore]. rewrite calculateHealthScore_raw.
    assert (R : rawScore (detectBlackSpots imageData) (assessDamage imageData) == 60).
    { unfold rawScore. rewrite FB, FD.
      assert (G : (Damage.percentage (assessDamage imageData) >? 10) = false)
        by (apply gtb_le; lra).
      rewrite G, andb_false_r.
      assert (M : Qmin (BlackSpots.percentage (detectBlackSpots imageData) * 3) 40 == 40)
        by (apply Q.min_r; lra).
      rewrite M. reflexivity. }
    rewrite (Math_round_comp _ _ R). reflexivity. }
  assert (E85 : (healthScore r >=? 85) = false) by (apply geb_lt; lra).
  assert (E70 : (healthScore r >=? 70) = false) by (apply geb_lt; lra).
  assert (E50 : (healthScore r >=? 50) = true) by (apply geb_ge; lra).
  assert (G2 : (blackSpotPercentage r >? 2) = true) by (apply gtb_gt; lra).
  assert (G20 : (damagePercentage r <? 20) = true) by (apply ltb_lt; lra).
  split; [exact HB |]. split; [exact PB' |]. split; [exact S |].
  assert (C : determineOverallCondition (healthScore r) (hasBlackSpots r) (hasDamage r)
              = moderate_damage).
  { unfold determineOverallCondition. rewrite E85, E70, E50. reflexivity. }
  split; [exact C |].
  unfold assessPlantHealth, selectDiseaseBasedOnAnalysis, Math_min.
  rewrite E85, E70, E50, HB, G2, G20, orb_true_r. cbn [andb negb urgency].
  split; reflexivity.
Qed.

Lemma all_spots_image_witness :
  let r := analyzeImage 0 0 (mkImageData 2 2 (solid 4 0 0 0)) in
  hasBlackSpots r = true /\ blackSpotPercentage r == 100 /\
  healthScore r == 60 /\
  overallCondition r = moderate_damage /\
  urgency (assessPlantHealth r) = Urgency.medium /\
  selectDiseaseBasedOnAnalysis r
  = Disease.with_confidence blackSpotDisease (Qmin 0.95 (confidence r / 100)).
Proof.
  apply (all_spots_image 0 0 (mkImageData 2 2 (solid 4 0 0 0))).
  - vm_compute. repeat split.
  - vm_compute. reflexivity.
  - vm_compute. reflexivity.
Defined.

(** ** More on the health score *)

(** X14.  With the black-spot statistics and hasDamage fixed, the health
    score never increases when damagePercentage increases. *)
Theorem healthScore_monotone_in_damage (blackSpots : BlackSpots.t) (hasDamage : bool)
    (d1 d2 : Q) :
  d1 <= d2 ->
  calculateHealthScore blackSpots (Damage.mk hasDamage d2)
  <= calculateHealthScore blackSpots (Damage.mk hasDamage d1).
Proof.
  intros H. rewrite !calculateHealthScore_raw.
  apply Q.max_le_compat_l. apply Math_round_le.
  unfold rawScore. cbn [Damage.hasDamage Damage.percentage].
  assert (D : Qmin (d1 * 2) 50 <= Qmin (d2 * 2) 50) by (apply Q.min_le_compat_r; lra).
  assert (C : (if (BlackSpots.percentage blackSpots >? 5) && (d1 >? 10) then 15 else 0)
              <= (if (BlackSpots.percentage blackSpots >? 5) && (d2 >? 10) then 15 else 0)).
  { destruct (BlackSpots.percentage blackSpots >? 5), (d1 >? 10) eqn:E1, (d2 >? 10) eqn:E2;
      cbn [andb]; js_prop; lra. }
  destruct hasDamage; lra.
Qed.

Lemma healthScore_monotone_in_damage_witness :
  calculateHealthScore (BlackSpots.mk true 3 6) (Damage.mk true 10.01)
  <= calculateHealthScore (BlackSpots.mk true 3 6) (Damage.mk true 10).
Proof.
  apply (healthScore_monotone_in_damage (BlackSpots.mk true 3 6) true 10 10.01).
  vm_compute. discriminate.
Defined.

(** ** Image quality of small images *)

Lemma for_range_empty {S : Type} (lo hi : Z) (body : Z -> S -> S) (s : S) :
  (hi <= lo)%Z -> for_range lo hi body s = s.
Proof.
  intros H. unfold for_range.
  replace (Z.to_nat (hi - lo)) with 0%nat by lia. reflexivity.
Qed.

Lemma quality_score_base (sharpness avgContrast : Q) :
  sharpness == 0 -> avgContrast == 0 ->
  Math_min (50 + Math_min (sharpness * 2) 30 + Math_min (avgContrast / 5) 20) 95 == 50.
Proof.
  intros Es Ec. unfold Math_min.
  assert (A : Qmin (sharpness * 2) 30 == 0) by (rewrite Q.min_l; lra).
  assert (B : Qmin (avgContrast / 5) 20 == 0) by (rewrite Q.min_l; qlra).
  rewrite Q.min_l; lra.
Qed.

(** X15.  A well-formed image less than 3 pixels wide or less than 3 pixels
    high has no interior pixel, and its image quality is the base value 50. *)
Theorem imageQuality_without_interior (imageData : ImageData) :
  well_formed imageData ->
  (width imageData <= 2)%Z \/ (height imageData <= 2)%Z ->
  assessImageQuality imageData == 50.
Proof.
  intros _ Small. unfold assessImageQuality.
  set (loops := for_range 1 (height imageData - 1) _ (0%Z, 0)).
  assert (L : loops = (0%Z, 0)).
  { subst loops. destruct Small as [W | H].
    - apply (for_range_invariant (fun acc => acc = (0%Z, 0))); [| reflexivity].
      intros y acc _ ->. apply for_range_empty. lia.
    - apply for_range_empty. lia. }
  rewrite L. cbv beta iota. change (inject_Z 0) with 0.
  apply quality_score_base; unfold Qdiv; ring.
Qed.

Lemma imageQuality_without_interior_witness :
  assessImageQuality image_one_white_in_199 == 50.
Proof.
  apply (imageQuality_without_interior image_one_white_in_199).
  - vm_compute. repeat split.
  - right. vm_compute. discriminate.
Defined.

(** ** What the statistics do not look at *)

Lemma tally_permutation (f : Pixel -> Z) (l1 l2 : list Pixel) :
  Permutation l1 l2 ->
  fold_right (fun p n => (f p + n)%Z) 0%Z l1 = fold_right (fun p n => (f p + n)%Z) 0%Z l2.
Proof.
  induction 1; cbn [fold_right]; lia.
Qed.

(** X16.  The black-spot and damage statistics, and hence the health score,
    depend only on the image dimensions and on which RGB triples occur how
    often: two images of the same size whose pixels are a rearrangement of
    each other (with any alpha values) get the same statistics. *)
Theorem statistics_ignore_position_and_alpha (image1 image2 : ImageData) :
  width image1 = width image2 -> height image1 = height image2 ->
  Permutation (pixels (data image1)) (pixels (data image2)) ->
  detectBlackSpots image1 = detectBlackSpots image2 /\
  assessDamage image1 = assessDamage image2 /\
  calculateHealthScore (detectBlackSpots image1) (assessDamage image1)
  = calculateHealthScore (detectBlackSpots image2) (assessDamage image2).
Proof.
  intros W H P.
  assert (B : blackSpotPixelCount image1 = blackSpotPixelCount image2)
    by (apply (tally_permutation (fun p => indicator (is_black_spot p))); exact P).
  assert (D : damagedPixelTally image1 = damagedPixelTally image2)
    by (apply (tally_permutation damage_matches); exact P).
  assert (EB : detectBlackSpots image1 = detectBlackSpots image2)
    by (rewrite !detectBlackSpots_unfold, B, W, H; reflexivity).
  assert (ED : assessDamage image1 = assessDamage image2)
    by (rewrite !assessDamage_unfold, D, W, H; reflexivity).
  split; [exact EB |]. split; [exact ED |]. rewrite EB, ED. reflexivity.
Qed.

Lemma statistics_ignore_position_and_alpha_witness :
  detectBlackSpots (mkImageData 2 1 [0; 0; 0; 255; 128; 128; 128; 255]%Z)
  = detectBlackSpots (mkImageData 2 1 [128; 128; 128; 0; 0; 0; 0; 7]%Z).
Proof.
  apply (statistics_ignore_position_and_alpha
           (mkImageData 2 1 [0; 0; 0; 255; 128; 128; 128; 255]%Z)
           (mkImageData 2 1 [128; 128; 128; 0; 0; 0; 0; 7]%Z));
    [reflexivity | reflexivity |].
  cbn. apply perm_swap.
Defined.

(** ** The list of detected issues *)

(** X17.  generateIssuesList returns between one and three entries: at most
    one about black spots, at most one about damage, the stress notice
    exactly when the health score is below 50, and the no-issues notice only
    as the single entry, exactly when both flags are false and the score is at
    least 50. *)
Theorem issues_list_shape (toFixed1 toString : Q -> string)
    (blackSpots : BlackSpots.t) (damage : Damage.t) (score : Q) :
  let issues := generateIssuesList toFixed1 toString blackSpots damage score in
  let none := "No significant issues detected - plant appears healthy"%string in
  let stress := "Plant showing signs of severe stress"%string in
  (1 <= List.length issues <= 3)%nat /\
  (issues = [none] <->
   BlackSpots.hasBlackSpots blackSpots = false /\ Damage.hasDamage damage = false /\
   50 <= score) /\
  (In none issues -> issues = [none]) /\
  (In stress issues <-> score < 50).
Proof.
  unfold generateIssuesList, push.
  destruct (BlackSpots.hasBlackSpots blackSpots);
    [destruct (BlackSpots.percentage blackSpots >? 10);
       [| destruct (BlackSpots.percentage blackSpots >? 3)] |];
    (destruct (Damage.hasDamage damage);
       [destruct (Damage.percentage damage >? 20);
          [| destruct (Damage.percentage damage >? 10)] |]);
    destruct (score <? 50) eqn:E; js_prop;
    cbn [app List.length Nat.eqb String.append In];
    (split; [lia |]);
    (split; [split; [intros H; try discriminate H; repeat split; try reflexivity; exact E
                    | intros (H1 & H2 & H3); try discriminate; try reflexivity; exfalso; lra] |]);
    (split; [intros H; repeat (destruct H as [H | H]; try discriminate H);
             try contradiction; reflexivity |]);
    (split; [intros H; repeat (destruct H as [H | H]; try discriminate H);
             try contradiction; try exact E; exfalso; lra
            | intros H; try (exfalso; lra); auto 6]).
Qed.

(** X18.  When the analysis of a well-formed image sets neither flag, the
    health score is exactly 100 whatever the (small) reported percentages
    are, and the list of detected issues is the no-issues notice alone. *)
Theorem no_flags_full_score (toFixed1 toString : Q -> string) (random elapsed : Q)
    (imageData : ImageData) :
  well_formed imageData ->
  let r := analyzeImage random elapsed imageData in
  hasBlackSpots r = false -> hasDamage r = false ->
  healthScore r == 100 /\
  detectedIssues toFixed1 toString imageData
  = ["No significant issues detected - plant appears healthy"%string].
Proof.
  intros _ r FB FD. subst r.
  cbn [analyzeImage hasBlackSpots hasDamage healthScore] in *.
  pose proof (proj2 (blackSpots_flag_and_percentage imageData) FB) as PB.
  assert (S : calculateHealthScore (detectBlackSpots imageData) (assessDamage imageData)
              == 100).
  { rewrite calculateHealthScore_raw.
    assert (R : rawScore (detectBlackSpots imageData) (assessDamage imageData) == 100).
    { unfold rawScore. rewrite FB, FD.
      assert (G : (BlackSpots.percentage (detectBlackSpots imageData) >? 5) = false)
        by (apply gtb_le; lra).
      rewrite G. cbn [andb]. ring. }
    rewrite (Math_round_comp _ _ R). reflexivity. }
  split; [exact S |].
  unfold detectedIssues, generateIssuesList, push. rewrite FB, FD.
  assert (E : (calculateHealthScore (detectBlackSpots imageData) (assessDamage imageData)
               <? 50) = false) by (apply ltb_ge; lra).
  rewrite E. reflexivity.
Qed.

Lemma no_flags_full_score_witness :
  healthScore (analyzeImage 0 0 image_gray) == 100 /\
  detectedIssues (fun _ => EmptyString) (fun _ => EmptyString) image_gray
  = ["No significant issues detected - plant appears healthy"%string].
Proof.
  apply (no_flags_full_score (fun _ => EmptyString) (fun _ => EmptyString) 0 0 image_gray).
  - vm_compute. repeat split.
  - vm_compute. reflexivity.
  - vm_compute. reflexivity.
Defined.

(** ** Assessment against selector *)

(** X19.  For the analysis of a well-formed image with a reported
    blackSpotPercentage strictly between 2 and 5 and a health score of at
    least 70, the assessment calls the plant healthy (urgency low) while the
    selector reports Black Spot Disease, whose severity is severe. *)
Theorem healthy_assessment_with_black_spot_disease (random elapsed : Q)
    (imageData : ImageData) :
  well_formed imageData ->
  let r := analyzeImage random elapsed imageData in
  2 < blackSpotPercentage r -> blackSpotPercentage r < 5 -> 70 <= healthScore r ->
  isHealthy (assessPlantHealth r) = true /\
  urgency (assessPlantHealth r) = Urgency.low /\
  selectDiseaseBasedOnAnalysis r
  = Disease.with_confidence blackSpotDisease (Qmin 0.95 (confidence r / 100)) /\
  Disease.severity (selectDiseaseBasedOnAnalysis r) = "severe"%string.
Proof.
  intros _ r P2 P5 S.
  assert (F : hasBlackSpots r = true).
  { subst r. cbn [analyzeImage hasBlackSpots blackSpotPercentage] in *.
    apply (flags_of_large_percentages imageData). lra. }
  assert (G2 : (blackSpotPercentage r >? 2) = true) by (apply gtb_gt; exact P2).
  assert (G5 : (blackSpotPercentage r <? 5) = true) by (apply ltb_lt; exact P5).
  assert (E70 : (healthScore r >=? 70) = true) by (apply geb_ge; exact S).
  unfold assessPlantHealth, selectDiseaseBasedOnAnalysis, Math_min.
  rewrite F, G2, G5, E70, andb_false_r, orb_true_r.
  cbn [andb isHealthy urgency]. repeat split.
Qed.

Lemma healthy_assessment_with_black_spot_disease_witness :
  let r := analyzeImage 0 0 image_3_black_in_100 in
  isHealthy (assessPlantHealth r) = true /\
  urgency (assessPlantHealth r) = Urgency.low /\
  selectDiseaseBasedOnAnalysis r
  = Disease.with_confidence blackSpotDisease (Qmin 0.95 (confidence r / 100)) /\
  Disease.severity (selectDiseaseBasedOnAnalysis r) = "severe"%string.
Proof.
  apply (healthy_assessment_with_black_spot_disease 0 0 image_3_black_in_100).
  - vm_compute. repeat split.
  - vm_compute. reflexivity.
  - vm_compute. reflexivity.
  - vm_compute. discriminate.
Defined.

(** X20.  Whatever the analysis result, the selector returns one of four
    entries (never Anthracnose, Downy Mildew or Fusarium Wilt), and its
    severity is never mild: Black Spot Disease is shown with the severe
    classes, Powdery Mildew and Bacterial Leaf Spot with the moderate ones,
    and Healthy Plant, whose severity none is not a case of the two severity
    helpers, with their fallback classes. *)
Theorem selected_severity_classes (r : ImageAnalysisResult) :
  let d := selectDiseaseBasedOnAnalysis r in
  let color := getSeverityColor (Disease.severity d) in
  let bg := getSeverityBg (Disease.severity d) in
  (Disease.name d = "Black Spot Disease"%string /\
   color = "text-destructive"%string /\ bg = "bg-destructive/10"%string) \/
  ((Disease.name d = "Powdery Mildew"%string \/ Disease.name d = "Bacterial Leaf Spot"%string) /\
   color = "text-cta"%string /\ bg = "bg-cta/10"%string) \/
  (Disease.name d = "Healthy Plant"%string /\
   color = "text-muted-foreground"%string /\ bg = "bg-muted/10"%string).
Proof.
  unfold selectDiseaseBasedOnAnalysis.
  destruct (hasBlackSpots r && (blackSpotPercentage r >? 2));
    [| destruct (hasDamage r && (damagePercentage r >? 10));
       [| destruct (healthScore r <? 60); [| destruct (healthScore r >=? 85)]]];
    cbn.
  - left. repeat split.
  - right. left. split; [left; reflexivity | split; reflexivity].
  - right. left. split; [right; reflexivity | split; reflexivity].
  - right. right. repeat split.
  - right. left. split; [left; reflexivity | split; reflexivity].
Qed.

(** ** The progress timer and the detection statistics *)



